(** * WhisperTurboAPI: the model gate and the transcribe handler of
      [scripts/main.py]

    A shallow embedding of [load_model], [transcribe_sync] and
    [transcribe_audio].  Everything outside [main.py] (the file system, the
    clock, the upload, the [Transcriber] class, [mlx], [huggingface_hub]) is
    represented by its observable behaviour: a file-system state, and records
    of outcomes ([LoadEnv], [Env]) that say what each external call returns or
    raises.

    The two example clients, [examples/simple_demo.py] and
    [examples/demo.py], are embedded in the module [client]. *)

From Stdlib Require Import QArith Qround Qabs Lqa.
From stdpp Require Import gmap strings list fin_maps pretty.

Open Scope string_scope.
Open Scope list_scope.

(** ** Python exceptions *)

(** Only classes deriving from [Exception] are represented; [HTTPException]
    is kept apart because the handler raises it itself. *)
Inductive exn : Type :=
  | Exception (msg : string)
  | HTTPException (status_code : nat) (detail : string).

(** [str(e)] *)
Definition str_exn (e : exn) : string :=
  match e with
  | Exception msg => msg
  | HTTPException c d => pretty c ++ ": " ++ d
  end.

(** ** [str] methods used on weight keys and paths *)

Module pystr.

(** [sub in s] *)
Fixpoint contains (sub s : string) : bool :=
  String.prefix sub s ||
  match s with
  | EmptyString => false
  | String _ s' => contains sub s'
  end.

(** [s.replace("", new)]: [new] before every character and at the end. *)
Fixpoint interleave (new s : string) : string :=
  match s with
  | EmptyString => new
  | String c s' => new ++ String c (interleave new s')
  end.

(** Left-to-right scan of [s.replace(old, new)] for a non-empty [old];
    [skip] counts the characters of a match still to be dropped. *)
Fixpoint replace_from (skip : nat) (old new s : string) : string :=
  match s with
  | EmptyString => EmptyString
  | String c s' =>
      match skip with
      | S n => replace_from n old new s'
      | O =>
          if String.prefix old s
          then new ++ replace_from (String.length old - 1)%nat old new s'
          else String c (replace_from 0 old new s')
      end
  end.

(** [s.replace(old, new)] *)
Definition replace (old new s : string) : string :=
  match old with
  | EmptyString => interleave new s
  | _ => replace_from 0 old new s
  end.

(** A transcription is a sequence of Unicode code points. *)
Definition text : Type := list N.

(** [str.isspace] on one code point. *)
Definition isspace (c : N) : bool :=
  ((9 <=? c) && (c <=? 13) ||
   (28 <=? c) && (c <=? 32) ||
   (c =? 133) || (c =? 160) || (c =? 5760) ||
   (8192 <=? c) && (c <=? 8202) ||
   (c =? 8232) || (c =? 8233) || (c =? 8239) || (c =? 8287) ||
   (c =? 12288))%N.

Fixpoint lstrip (s : text) : text :=
  match s with
  | c :: s' => if isspace c then lstrip s' else s
  | [] => []
  end.

Definition rstrip (s : text) : text := reverse (lstrip (reverse s)).

(** [s.strip()] *)
Definition strip (s : text) : text := lstrip (rstrip s).

End pystr.

(** ** [mlx.core] arrays *)

Module mx.

(** An array is its shape and its elements in row-major order; an element
    is kept as its raw bit pattern. *)
Record array : Type := { shape : list nat; data : list Z }.

Definition ndim (v : array) : nat := length (shape v).

Definition size_of (sh : list nat) : nat := foldr Nat.mul 1 sh.

(** Flat offset of a multi-index, and the multi-index of a flat offset. *)
Fixpoint ravel (sh idx : list nat) : nat :=
  match sh, idx with
  | d :: sh', i :: idx' => i * size_of sh' + ravel sh' idx'
  | _, _ => 0
  end.

Fixpoint unravel (sh : list nat) (n : nat) : list nat :=
  match sh with
  | [] => []
  | d :: sh' => (n / size_of sh') `mod` d :: unravel sh' (n `mod` size_of sh')
  end.

(** Exchange positions [i] and [j] of a list. *)
Definition swap {A} (i j : nat) (l : list A) : list A :=
  match l !! i, l !! j with
  | Some x, Some y => <[i := y]> (<[j := x]> l)
  | _, _ => l
  end.

(** [v.swapaxes(axis1, axis2)] for non-negative axes; an axis outside the
    array's dimensions raises. *)
Definition swapaxes (axis1 axis2 : nat) (v : array) : exn + array :=
  if ((axis1 <? ndim v) && (axis2 <? ndim v))%nat then
    let sh' := swap axis1 axis2 (shape v) in
    inr {| shape := sh';
           data := (fun n => nth (ravel (shape v) (swap axis1 axis2 (unravel sh' n)))
                                 (data v) 0%Z)
                   <$> seq 0 (length (data v)) |}
  else inl (Exception "[swapaxes] axis out of bounds").

End mx.

(** ** The parameter normalisation of [load_model] (lines 79-85) *)

Definition normalize_entry (kv : string * mx.array) : exn + (string * mx.array) :=
  let '(k, v) := kv in
  let k' := pystr.replace "embed_positions.weight" "positional_embedding" k in
  match (if pystr.contains "conv" k && (mx.ndim v =? 3)%nat
         then mx.swapaxes 1 2 v else inr v) with
  | inl e => inl e
  | inr v' => inr (k', v')
  end.

(** The list comprehension over [weights.items()]; the first entry that
    raises aborts it. *)
Fixpoint normalize_weights (items : list (string * mx.array))
  : exn + list (string * mx.array) :=
  match items with
  | [] => inr []
  | kv :: rest =>
      match normalize_entry kv with
      | inl e => inl e
      | inr kv' =>
          match normalize_weights rest with
          | inl e => inl e
          | inr out => inr (kv' :: out)
          end
      end
  end.

(** ** [round(x, 2)]

    Timestamps are kept as exact rationals; [round] goes to the nearest
    multiple of 1/100, ties to the even neighbour. *)

Definition round_half_even (x : Q) : Z :=
  let f := Qfloor x in
  match (x - inject_Z f ?= 1 # 2)%Q with
  | Lt => f
  | Gt => (f + 1)%Z
  | Eq => if Z.even f then f else (f + 1)%Z
  end.

Definition round2 (x : Q) : Q := (round_half_even (x * inject_Z 100) # 100)%Q.

(** ** The world outside the handler *)

Definition bytes : Type := list Byte.byte.

(** Directories and regular files (path to content). *)
Record FS : Type := { dirs : gset string; files : gmap string bytes }.

Definition path_join (a b : string) : string := a ++ "/" ++ b.

Definition config : Type := list (string * Z).

(** Modelled from the spec: the [Transcriber] class of [whisper_turbo.py] is
    not among the sources.  Section 6 gives its contract: a constructor taking
    a configuration mapping, raw parameter tensors loaded into it, and a
    callable entry point [infer(path, any_lang, quick) -> string].  An
    instance is the data it was built from; what its methods return or raise
    is given by [LoadEnv] and [Env]. *)
Record Transcriber : Type :=
  { cfg : config; params : list (string * mx.array); training : bool }.

(** What the calls made by one run of [load_model] do. *)
Record LoadEnv : Type := {
  mkdir_exn : option exn;
  snapshot_download : exn + (string * gmap string bytes);
  json_load : bytes -> exn + config;
  mx_load : bytes -> exn + list (string * mx.array);
  Transcriber_init_exn : config -> option exn;
  load_weights_exn : Transcriber -> list (string * mx.array) -> option exn;
  mx_eval_exn : Transcriber -> option exn
}.

Inductive level : Type := INFO | ERROR.

(** [logging.basicConfig(level=logging.ERROR)] *)
Definition root_level : level := ERROR.

Definition enabled_for (l : level) : bool :=
  match root_level, l with
  | ERROR, INFO => false
  | _, _ => true
  end.

(** External calls worth observing, in the order they happen. *)
Inductive call : Type :=
  | CallTime (t : Q)
  | CallWait
  | CallSnapshotDownload
  | CallExcepthook (e : exn)
  | CallMakedirs (p : string)
  | CallRead
  | CallNamedTemporaryFile (suffix : string)
  | CallWrite (p : string)
  | CallModel (path_audio : string) (any_lang quick : bool)
  | CallRemove (p : string).

(** The module's globals, the thread started at line 103 while it has not
    run yet, and the process's surroundings. *)
Record World : Type := {
  BASE_DIR : string;
  model : option Transcriber;
  model_loaded : bool;
  loader_thread : option LoadEnv;
  fs : FS;
  log : list (level * string);
  trace : list call
}.

Definition CACHE_DIR (w : World) : string :=
  path_join (path_join (BASE_DIR w) "data") ".whisper_cache".
Definition UPLOAD_DIR (w : World) : string :=
  path_join (path_join (BASE_DIR w) "data") "uploads".

Definition set_model (m : option Transcriber) (w : World) : World :=
  {| BASE_DIR := BASE_DIR w; model := m; model_loaded := model_loaded w;
     loader_thread := loader_thread w; fs := fs w; log := log w; trace := trace w |}.
Definition set_model_loaded (b : bool) (w : World) : World :=
  {| BASE_DIR := BASE_DIR w; model := model w; model_loaded := b;
     loader_thread := loader_thread w; fs := fs w; log := log w; trace := trace w |}.
Definition set_loader_thread (t : option LoadEnv) (w : World) : World :=
  {| BASE_DIR := BASE_DIR w; model := model w; model_loaded := model_loaded w;
     loader_thread := t; fs := fs w; log := log w; trace := trace w |}.
Definition set_fs (f : FS) (w : World) : World :=
  {| BASE_DIR := BASE_DIR w; model := model w; model_loaded := model_loaded w;
     loader_thread := loader_thread w; fs := f; log := log w; trace := trace w |}.
Definition add_log (l : level) (msg : string) (w : World) : World :=
  {| BASE_DIR := BASE_DIR w; model := model w; model_loaded := model_loaded w;
     loader_thread := loader_thread w; fs := fs w;
     log := if enabled_for l then log w ++ [(l, msg)] else log w; trace := trace w |}.
Definition add_call (c : call) (w : World) : World :=
  {| BASE_DIR := BASE_DIR w; model := model w; model_loaded := model_loaded w;
     loader_thread := loader_thread w; fs := fs w; log := log w;
     trace := trace w ++ [c] |}.

Definition set_dirs (d : gset string) (f : FS) : FS := {| dirs := d; files := files f |}.
Definition set_files (m : gmap string bytes) (f : FS) : FS :=
  {| dirs := dirs f; files := m |}.

(** ** Computations: state, exceptions, and a task that never resumes *)

Inductive outcome (A : Type) : Type :=
  | Return (a : A)
  | Raise (e : exn)
  | Blocked.
Arguments Return {A} a.
Arguments Raise {A} e.
Arguments Blocked {A}.

Definition M (S A : Type) : Type := S -> outcome A * S.

Definition ret {S A} (a : A) : M S A := fun s => (Return a, s).
Definition raise {S A} (e : exn) : M S A := fun s => (Raise e, s).
Definition bind {S A B} (m : M S A) (k : A -> M S B) : M S B :=
  fun s =>
    match m s with
    | (Return a, s') => k a s'
    | (Raise e, s') => (Raise e, s')
    | (Blocked, s') => (Blocked, s')
    end.
Definition gets {S A} (f : S -> A) : M S A := fun s => (Return (f s), s).
Definition modify {S} (f : S -> S) : M S unit := fun s => (Return tt, f s).
Definition of_result {S A} (r : exn + A) : M S A :=
  match r with inl e => raise e | inr a => ret a end.
Definition raise_if {S} (o : option exn) : M S unit :=
  match o with Some e => raise e | None => ret tt end.

(** [try: body / except Exception as e: handler e] *)
Definition try_except {S A} (body : M S A) (handler : exn -> M S A) : M S A :=
  fun s =>
    match body s with
    | (Raise e, s') => handler e s'
    | r => r
    end.

(** [try: body / finally: final]; an exception of [final] replaces the
    outcome of [body]. *)
Definition try_finally {S A} (body : M S A) (final : M S unit) : M S A :=
  fun s =>
    match body s with
    | (Blocked, s') => (Blocked, s')
    | (r, s') =>
        match final s' with
        | (Return _, s'') => (r, s'')
        | (Raise e, s'') => (Raise e, s'')
        | (Blocked, s'') => (Blocked, s'')
        end
    end.

Notation "'let!' x ':=' m 'in' k" := (bind m (fun x => k))
  (at level 10, x name, m at level 100, k at level 200, only parsing).
Notation "m ';;' k" := (bind m (fun _ => k))
  (at level 100, k at level 200, right associativity, only parsing).

(** ** Library calls on the world *)

Definition logger_error (msg : string) : M World unit := modify (add_log ERROR msg).
Definition logger_info (msg : string) : M World unit := modify (add_log INFO msg).

(** [model_loaded.set()]: sets the flag, whatever it was. *)
Definition Event_set : M World unit := modify (set_model_loaded true).

(** [model_loaded.is_set()] *)
Definition Event_is_set : M World bool := gets model_loaded.

Definition Path_exists (p : string) : M World bool :=
  gets (fun w => bool_decide (is_Some (files (fs w) !! p)) || bool_decide (p ∈ dirs (fs w))).

(** [cache_dir.mkdir(parents=True, exist_ok=True)] *)
Definition Path_mkdir (le : LoadEnv) (p : string) : M World unit :=
  raise_if (mkdir_exn le) ;;
  modify (fun w => set_fs (set_dirs ({[ p ]} ∪ dirs (fs w)) (fs w)) w).

(** [snapshot_download(...)]: the snapshot's files appear below the returned
    directory. *)
Definition hf_snapshot_download (le : LoadEnv) : M World string :=
  modify (add_call CallSnapshotDownload) ;;
  let! r := of_result (snapshot_download le) in
  modify (fun w => set_fs (set_files (r.2 ∪ files (fs w)) (fs w)) w) ;;
  ret r.1.

(** [os.system(f'cp {src} {dst}')]: never raises; copies when [src] is
    there. *)
Definition os_system_cp (src dst : string) : M World unit :=
  let! o := gets (fun w => files (fs w) !! src) in
  match o with
  | Some c => modify (fun w => set_fs (set_files (<[dst := c]> (files (fs w))) (fs w)) w)
  | None => ret tt
  end.

(** [open(p)] followed by reading the whole file. *)
Definition read_file (p : string) : M World bytes :=
  let! o := gets (fun w => files (fs w) !! p) in
  match o with
  | Some c => ret c
  | None => raise (Exception ("[Errno 2] No such file or directory: '" ++ p ++ "'"))
  end.

(** [Transcriber(cfg)]: a fresh module, in training mode, without loaded
    parameters. *)
Definition Transcriber_new (le : LoadEnv) (c : config) : M World Transcriber :=
  raise_if (Transcriber_init_exn le c) ;;
  ret {| cfg := c; params := []; training := true |}.

(** [m.load_weights(weights, strict=False)] *)
Definition Module_load_weights (le : LoadEnv) (m : Transcriber)
    (weights : list (string * mx.array)) : M World Transcriber :=
  raise_if (load_weights_exn le m weights) ;;
  ret {| cfg := cfg m; params := weights; training := training m |}.

(** [m.eval()] *)
Definition Module_eval (m : Transcriber) : Transcriber :=
  {| cfg := cfg m; params := params m; training := false |}.

(** [mx.eval(m)] *)
Definition mx_eval (le : LoadEnv) (m : Transcriber) : M World unit :=
  raise_if (mx_eval_exn le m).

(** ** [load_model] (lines 50-100) *)

Definition load_model (le : LoadEnv) : M World unit :=
  try_except
    (let! cache_dir := gets CACHE_DIR in
     Path_mkdir le cache_dir ;;
     let cached_weights := path_join cache_dir "model.safetensors" in
     let cached_config := path_join cache_dir "config.json" in
     let! have_weights := Path_exists cached_weights in
     let! have_both :=
       (if have_weights then Path_exists cached_config else ret false) in
     (if negb have_both then
        let! path_hf := hf_snapshot_download le in
        os_system_cp (path_hf ++ "/model.safetensors") cached_weights ;;
        os_system_cp (path_hf ++ "/config.json") cached_config
      else ret tt) ;;
     let! fp := read_file cached_config in
     let! cfg := of_result (json_load le fp) in
     let! raw := read_file cached_weights in
     let! weights := of_result (mx_load le raw) in
     let! weights := of_result (normalize_weights weights) in
     let! model_instance := Transcriber_new le cfg in
     let! model_instance := Module_load_weights le model_instance weights in
     let model_instance := Module_eval model_instance in
     mx_eval le model_instance ;;
     modify (set_model (Some model_instance)) ;;
     Event_set ;;
     logger_info "Model loaded successfully.")
    (fun e =>
       logger_error ("Failed to load model: " ++ str_exn e) ;;
       Event_set ;;
       raise e).

(** [threading.Thread(target=load_model).start()], from the moment the
    thread gets to run: an exception leaving the target ends the thread
    through [threading.excepthook], nothing else. *)
Definition Thread_run (le : LoadEnv) (w : World) : World :=
  let w0 := set_loader_thread None w in
  match load_model le w0 with
  | (Raise e, w') => add_call (CallExcepthook e) w'
  | (_, w') => w'
  end.

(** [model_loaded.wait()] without timeout: returns once the flag is set; the
    only thread that sets it is the loader. *)
Definition Event_wait : M World unit :=
  fun w =>
    if model_loaded w then (Return tt, w)
    else
      match loader_thread w with
      | None => (Blocked, w)
      | Some le =>
          let w' := Thread_run le w in
          if model_loaded w' then (Return tt, w') else (Blocked, w')
      end.

(** ** The request and what surrounds it *)

(** The upload: its client-supplied name and what [await file.read()] gives. *)
Record UploadFile : Type := { filename : option string; read : exn + bytes }.

(** What the calls made while serving one request do. *)
Record Env : Type := {
  t_start : Q;
  t_end : Q;
  makedirs_exn : option exn;
  Path_suffix : string -> string;
  tempdir : string;
  candidate_names : list string;
  mkstemp_exn : option exn;
  write_exn : option exn;
  close_exn : option exn;
  infer : Transcriber -> FS -> string -> bool -> bool -> exn + pystr.text;
  remove_exn : option exn
}.

(** The JSON body of a successful response. *)
Record Transcription : Type := {
  text : pystr.text;
  elapsed_time : Q;
  quick_mode : bool;
  any_lang : bool
}.

(** The handler's activation: the world and the local [tmp_file_path], unset
    until line 161 assigns it. *)
Record Frame : Type := { world : World; tmp_file_path : option string }.

Definition lift {A} (m : M World A) : M Frame A :=
  fun fr =>
    let (r, w) := m (world fr) in
    (r, {| world := w; tmp_file_path := tmp_file_path fr |}).

Definition assign_tmp_file_path (p : string) : M Frame unit :=
  modify (fun fr => {| world := world fr; tmp_file_path := Some p |}).

(** [os.makedirs(p, exist_ok=True)] *)
Definition os_makedirs (env : Env) (p : string) : M World unit :=
  modify (add_call (CallMakedirs p)) ;;
  raise_if (makedirs_exn env) ;;
  modify (fun w => set_fs (set_dirs ({[ p ]} ∪ dirs (fs w)) (fs w)) w).

(** [time.time()]; [t] is what the clock shows. *)
Definition time_time (t : Q) : M World Q :=
  modify (add_call (CallTime t)) ;;
  ret t.

(** [await file.read()] *)
Definition UploadFile_read (file : UploadFile) : M World bytes :=
  modify (add_call CallRead) ;;
  of_result (read file).

(** [Path(file.filename).suffix] *)
Definition filename_suffix (env : Env) (file : UploadFile) : M World string :=
  match filename file with
  | Some n => ret (Path_suffix env n)
  | None => raise (Exception "expected str, bytes or os.PathLike object, not NoneType")
  end.

(** The name picked by [tempfile]: the first candidate that does not exist
    yet. *)
Fixpoint fresh_name (dir suffix : string) (cands : list string)
    (m : gmap string bytes) : option string :=
  match cands with
  | [] => None
  | c :: cs =>
      let p := path_join dir ("tmp" ++ c ++ suffix) in
      match m !! p with
      | None => Some p
      | Some _ => fresh_name dir suffix cs m
      end
  end.

(** [tempfile.NamedTemporaryFile(delete=False, suffix=suffix)]: creates an
    empty file and returns its name. *)
Definition NamedTemporaryFile (env : Env) (suffix : string) : M World string :=
  modify (add_call (CallNamedTemporaryFile suffix)) ;;
  raise_if (mkstemp_exn env) ;;
  let! o := gets (fun w => fresh_name (tempdir env) suffix (candidate_names env) (files (fs w))) in
  match o with
  | None => raise (Exception "[Errno 17] No usable temporary file name found")
  | Some p =>
      modify (fun w => set_fs (set_files (<[p := []]> (files (fs w))) (fs w)) w) ;;
      ret p
  end.

(** [tmp_file.write(content)] *)
Definition tmp_write (env : Env) (p : string) (content : bytes) : M World unit :=
  modify (add_call (CallWrite p)) ;;
  raise_if (write_exn env) ;;
  modify (fun w => set_fs (set_files (<[p := content]> (files (fs w))) (fs w)) w).

(** Leaving the [with] block closes the file, also when the block raised; an
    exception of the close replaces the block's. *)
Definition with_closing {A} (env : Env) (body : M Frame A) : M Frame A :=
  try_finally body (lift (raise_if (close_exn env))).

(** [os.path.exists(p)] *)
Definition os_path_exists (p : string) : M World bool := Path_exists p.

(** [os.remove(p)] *)
Definition os_remove (env : Env) (p : string) : M World unit :=
  modify (add_call (CallRemove p)) ;;
  raise_if (remove_exn env) ;;
  let! o := gets (fun w => files (fs w) !! p) in
  match o with
  | None => raise (Exception ("[Errno 2] No such file or directory: '" ++ p ++ "'"))
  | Some _ => modify (fun w => set_fs (set_files (delete p (files (fs w))) (fs w)) w)
  end.

(** ** [transcribe_sync] (lines 105-123) *)

(** The lambda run by [asyncio.to_thread]: it looks up the global [model]
    when it runs and strips what the call returns. *)
Definition transcribe_sync (env : Env) (path_audio : string)
    (quick any_lang : bool) : M World pystr.text :=
  let! m := gets model in
  match m with
  | None => raise (Exception "'NoneType' object is not callable")
  | Some mdl =>
      modify (add_call (CallModel path_audio any_lang quick)) ;;
      let! f := gets fs in
      let! out := of_result (infer env mdl f path_audio any_lang quick) in
      ret (pystr.strip out)
  end.

(** ** [transcribe_audio] (lines 126-184) *)

(** The [finally] block. *)
Definition cleanup (env : Env) : M Frame unit :=
  let! local := gets tmp_file_path in
  match local with
  | None => ret tt
  | Some p =>
      let! there := lift (os_path_exists p) in
      if there then
        try_except (lift (os_remove env p))
          (fun e => lift (logger_error ("Error removing temporary file: " ++ str_exn e)))
      else ret tt
  end.

(** Lines 144-146: only a clear event makes the request wait. *)
Definition await_ready : M Frame unit :=
  let! ready := lift Event_is_set in
  if negb ready then lift (modify (add_call CallWait) ;; Event_wait)
  else ret tt.

(** The [try] block, lines 152-173. *)
Definition try_block (env : Env) (file : UploadFile) (quick any_lang : bool)
    (start_time : Q) : M Frame Transcription :=
  let! upload_dir := lift (gets UPLOAD_DIR) in
  lift (os_makedirs env upload_dir) ;;
  let! content := lift (UploadFile_read file) in
  let! suffix := lift (filename_suffix env file) in
  let! tmp_file := lift (NamedTemporaryFile env suffix) in
  with_closing env
    (lift (tmp_write env tmp_file content) ;;
     assign_tmp_file_path tmp_file) ;;
  let! transcription := lift (transcribe_sync env tmp_file quick any_lang) in
  let! now := lift (time_time (t_end env)) in
  let elapsed_time := (now - start_time)%Q in
  ret {| text := transcription;
         elapsed_time := round2 elapsed_time;
         quick_mode := quick;
         any_lang := any_lang |}.

(** The [except Exception as e] block, lines 175-177. *)
Definition except_block (e : exn) : M Frame Transcription :=
  lift (logger_error ("Transcription error: " ++ str_exn e)) ;;
  raise (HTTPException 500 "Transcription failed.").

(** Lines 148-184: what a request does once it is past the gate. *)
Definition after_gate (env : Env) (file : UploadFile) (quick any_lang : bool)
    (start_time : Q) : M Frame Transcription :=
  let! m := lift (gets model) in
  match m with
  | None => raise (HTTPException 500 "Model failed to load.")
  | Some _ =>
      try_finally
        (try_except (try_block env file quick any_lang start_time) except_block)
        (cleanup env)
  end.

Definition transcribe_audio (env : Env) (file : UploadFile)
    (quick any_lang : bool) : M Frame Transcription :=
  let! start_time := lift (time_time (t_start env)) in
  await_ready ;;
  after_gate env file quick any_lang start_time.

(** [health_check] (lines 186-194) *)
Definition health_check : list (string * string) :=
  [("status", "healthy"); ("version", "1.0.0")].

(** The module right after import: no model, the event clear, the loader
    thread started. *)
Definition module_init (base : string) (le : LoadEnv) (f : FS) : World :=
  {| BASE_DIR := base; model := None; model_loaded := false;
     loader_thread := Some le; fs := f; log := []; trace := [] |}.

(** A request enters the handler with no local assigned. *)
Definition enter (w : World) : Frame := {| world := w; tmp_file_path := None |}.

(** Serving one request: the response, and the world it leaves. *)
Definition serve (env : Env) (file : UploadFile) (quick any_lang : bool)
    (w : World) : outcome Transcription * World :=
  let (r, fr) := transcribe_audio env file quick any_lang (enter w) in
  (r, world fr).

(** ** Postconditions

    [wp m Q s]: running [m] from [s] ends in an outcome and a state that
    satisfy [Q]. *)
Definition wp {S A} (m : M S A) (Q : outcome A -> S -> Prop) (s : S) : Prop :=
  Q (m s).1 (m s).2.

(** Calls that come from waiting at the gate and from the loader thread. *)
Definition gate_call (c : call) : Prop :=
  match c with
  | CallWait | CallSnapshotDownload | CallExcepthook _ => True
  | _ => False
  end.

(** The worlds in which a request that entered in [w] at clock reading [t]
    can find itself past the gate: either the event was set and nothing
    happened, or the request waited and the loader thread ran meanwhile. *)
Definition gate_passed (t : Q) (w w0 : World) : Prop :=
  (model_loaded w = true /\ w0 = add_call (CallTime t) w)
  \/ (model_loaded w = false
      /\ exists le, loader_thread w = Some le
                    /\ w0 = Thread_run le (add_call CallWait (add_call (CallTime t) w))).

(** Calls made by the handler proper. *)
Definition request_call (c : call) : Prop :=
  match c with
  | CallWait | CallSnapshotDownload | CallExcepthook _ => False
  | _ => True
  end.

(** The same surroundings, except for what [os.remove] does. *)
Definition with_remove_exn (x : option exn) (env : Env) : Env :=
  {| t_start := t_start env; t_end := t_end env; makedirs_exn := makedirs_exn env;
     Path_suffix := Path_suffix env; tempdir := tempdir env;
     candidate_names := candidate_names env; mkstemp_exn := mkstemp_exn env;
     write_exn := write_exn env; close_exn := close_exn env; infer := infer env;
     remove_exn := x |}.

(** Requests served one after the other. *)
Record Request : Type :=
  { req_env : Env; req_file : UploadFile; req_quick : bool; req_any_lang : bool }.

Fixpoint serve_all (reqs : list Request) (w : World)
  : list (outcome Transcription) * World :=
  match reqs with
  | [] => ([], w)
  | rq :: rest =>
      let (r, w1) := serve (req_env rq) (req_file rq) (req_quick rq) (req_any_lang rq) w in
      let (rs, w2) := serve_all rest w1 in
      (r :: rs, w2)
  end.


(** ** Three readings of the specification that the code does not meet *)


(** Setting the event once it is set raises. *)
Definition second_set_detected : Prop :=
  forall w, model_loaded w = true -> exists e, (Event_set w).1 = Raise e.


(** ** A small deployment, for the examples *)

Module sample.

Definition tiny : Transcriber :=
  {| cfg := [("n_mels", 128%Z)]; params := []; training := false |}.

Definition empty_fs : FS := {| dirs := ∅; files := ∅ |}.

(** The model is loaded. *)
Definition ready : World :=
  {| BASE_DIR := "/srv/app"; model := Some tiny; model_loaded := true;
     loader_thread := None; fs := empty_fs; log := []; trace := [] |}.

(** A loader whose download fails. *)
Definition offline : LoadEnv :=
  {| mkdir_exn := None;
     snapshot_download := inl (Exception "Connection refused");
     json_load := fun _ => inr [];
     mx_load := fun _ => inr [];
     Transcriber_init_exn := fun _ => None;
     load_weights_exn := fun _ _ => None;
     mx_eval_exn := fun _ => None |}.

(** Right after import, with that loader about to run. *)
Definition starting : World := module_init "/srv/app" offline empty_fs.

Definition clip : UploadFile :=
  {| filename := Some "clip.wav";
     read := inr [Byte.x52; Byte.x49; Byte.x46; Byte.x46] |}.

Definition broken_upload : UploadFile :=
  {| filename := Some "clip.wav"; read := inl (Exception "client disconnected") |}.

(** Nothing fails; the model answers [" Hi\n"]. *)
Definition calm : Env :=
  {| t_start := 10; t_end := 12 + (3 # 8);
     makedirs_exn := None; Path_suffix := fun _ => ".wav";
     tempdir := "/tmp"; candidate_names := ["a1b2c3d4"];
     mkstemp_exn := None; write_exn := None; close_exn := None;
     infer := fun _ _ _ _ _ => inr [32; 72; 105; 10]%N;
     remove_exn := None |}.

(** [os.remove] is refused. *)
Definition undeletable : Env :=
  with_remove_exn (Some (Exception "[Errno 13] Permission denied")) calm.

(** The disk is full: the temporary file is created, writing to it fails. *)
Definition disk_full : Env :=
  {| t_start := 10; t_end := 12;
     makedirs_exn := None; Path_suffix := fun _ => ".wav";
     tempdir := "/tmp"; candidate_names := ["a1b2c3d4"];
     mkstemp_exn := None;
     write_exn := Some (Exception "[Errno 28] No space left on device");
     close_exn := None;
     infer := fun _ _ _ _ _ => inr [32; 72; 105; 10]%N;
     remove_exn := None |}.


End sample.

(** The two cached artifacts of [load_model] (lines 61-62). *)
Definition cached_weights (w : World) : string :=
  path_join (CACHE_DIR w) "model.safetensors".
Definition cached_config (w : World) : string :=
  path_join (CACHE_DIR w) "config.json".

(** The last character of a string. *)
Fixpoint last_char (s : string) : option Stdlib.Strings.Ascii.ascii :=
  match s with
  | EmptyString => None
  | String c EmptyString => Some c
  | String _ s' => last_char s'
  end.

(** ** A deployment with files in place *)

Module crowded.

(** The model is loaded; the temporary directory already holds a file under
    the first name [tempfile] will try, and there is a file of the user's. *)
Definition world : World :=
  {| BASE_DIR := "/srv/app"; model := Some sample.tiny; model_loaded := true;
     loader_thread := None;
     fs := {| dirs := {[ "/tmp" ]};
              files := {[ "/tmp/tmpa1b2c3d4.wav" := [Byte.x01];
                          "/home/u/notes.txt" := [Byte.x02] ]} |};
     log := []; trace := [] |}.

(** Nothing fails; [tempfile] has two names to try. *)
Definition env : Env :=
  {| t_start := 10; t_end := 11;
     makedirs_exn := None; Path_suffix := fun _ => ".wav";
     tempdir := "/tmp"; candidate_names := ["a1b2c3d4"; "e5f6g7h8"];
     mkstemp_exn := None; write_exn := None; close_exn := None;
     infer := fun _ _ _ _ _ => inr [72; 105]%N;
     remove_exn := None |}.

(** The model raises. *)
Definition env_model_fails : Env :=
  {| t_start := 10; t_end := 11;
     makedirs_exn := None; Path_suffix := fun _ => ".wav";
     tempdir := "/tmp"; candidate_names := ["a1b2c3d4"; "e5f6g7h8"];
     mkstemp_exn := None; write_exn := None; close_exn := None;
     infer := fun _ _ _ _ _ => inl (Exception "decode error");
     remove_exn := None |}.

Definition nameless : UploadFile :=
  {| filename := None; read := inr [Byte.x52; Byte.x49] |}.

(** A loader whose download delivers both files. *)
Definition online : LoadEnv :=
  {| mkdir_exn := None;
     snapshot_download :=
       inr ("/hf/snap", {[ "/hf/snap/model.safetensors" := [Byte.x07];
                           "/hf/snap/config.json" := [Byte.x7b; Byte.x7d] ]});
     json_load := fun _ => inr [("n_mels", 128%Z)];
     mx_load := fun _ =>
       inr [("encoder.conv1.weight",
             {| mx.shape := [1; 2; 3]; mx.data := [1; 2; 3; 4; 5; 6]%Z |});
            ("decoder.embed_positions.weight",
             {| mx.shape := [2; 2]; mx.data := [7; 8; 9; 10]%Z |})];
     Transcriber_init_exn := fun _ => None;
     load_weights_exn := fun _ _ => None;
     mx_eval_exn := fun _ => None |}.

(** A loader whose download comes back without [config.json]. *)
Definition partial_download : LoadEnv :=
  {| mkdir_exn := None;
     snapshot_download :=
       inr ("/hf/snap", {[ "/hf/snap/model.safetensors" := [Byte.x07] ]});
     json_load := fun _ => inr [("n_mels", 128%Z)];
     mx_load := fun _ => inr [];
     Transcriber_init_exn := fun _ => None;
     load_weights_exn := fun _ _ => None;
     mx_eval_exn := fun _ => None |}.

(** Right after import, nothing cached. *)
Definition fresh : World := module_init "/srv/app" online sample.empty_fs.

End crowded.

(** ** The example clients: [examples/simple_demo.py] and [examples/demo.py] *)

Module client.

(** Exceptions a client function can leave with: the ones it raises itself
    or that subscripting raises, by class, and whatever [open], [requests]
    or [json()] raised. *)
Inductive error : Type :=
  | FileNotFoundError (msg : string)
  | ValueError (msg : string)
  | KeyError (key : string)
  | TypeError
  | PlainException (msg : string)
  | Propagated (e : exn).

(** A decoded JSON body; an object is the [dict] it decodes to, its keys in
    order. *)
Inductive json : Type :=
  | JString (s : pystr.text)
  | JNumber (x : Q)
  | JBool (b : bool)
  | JNull
  | JArray (items : list json)
  | JObject (members : list (string * json)).

(** What [requests.post] returns: the status, the body as text, and what
    [response.json()] gives. *)
Record Response : Type := {
  status_code : nat;
  text : string;
  json_body : exn + json
}.

(** A request as the clients build it: the URL, the [file] part (name and
    content; the content type is always ['audio/wav']) and the query. *)
Record Post : Type := {
  url : string;
  upload_name : string;
  upload_body : bytes;
  params : list (string * string)
}.

(** The client's surroundings. *)
Record Env : Type := {
  path_exists : string -> bool;
  open_rb : string -> exn + bytes;
  requests_post : Post -> exn + Response
}.

(** [c.lower()] for one character of an ASCII path: only the letters [A-Z]
    change. *)
Definition lower_char (c : Stdlib.Strings.Ascii.ascii) : Stdlib.Strings.Ascii.ascii :=
  let n := Stdlib.Strings.Ascii.N_of_ascii c in
  if ((65 <=? n) && (n <=? 90))%N
  then Stdlib.Strings.Ascii.ascii_of_N (n + 32)
  else c.

(** [s.lower()] *)
Fixpoint lower (s : string) : string :=
  match s with
  | EmptyString => EmptyString
  | String c s' => String (lower_char c) (lower s')
  end.

(** [s.endswith(suffix)] *)
Fixpoint endswith (suffix s : string) : bool :=
  String.eqb suffix s ||
  match s with
  | EmptyString => false
  | String _ s' => endswith suffix s'
  end.

Definition audio_suffixes : list string := [".wav"; ".mp3"; ".m4a"; ".flac"].

(** [file_path.lower().endswith(('.wav', '.mp3', '.m4a', '.flac'))] *)
Definition supported (file_path : string) : bool :=
  existsb (fun suffix => endswith suffix (lower file_path)) audio_suffixes.

(** [str(b).lower()] *)
Definition str_bool_lower (b : bool) : string := lower (if b then "True" else "False").

(** [os.path.basename(p)]: what follows the last slash. *)
Fixpoint basename (p : string) : string :=
  match p with
  | EmptyString => EmptyString
  | String _ p' =>
      if pystr.contains "/" p' then basename p'
      else if String.prefix "/" p then p' else p
  end.

(** The [params] dictionary of both clients. *)
Definition query (quick any_lang : bool) : list (string * string) :=
  [("quick", str_bool_lower quick); ("any_lang", str_bool_lower any_lang)].

(** [d[key]] on a [dict] *)
Fixpoint dict_get (members : list (string * json)) (key : string) : option json :=
  match members with
  | [] => None
  | (k, v) :: rest => if String.eqb k key then Some v else dict_get rest key
  end.

(** [result[key]] with a string key: only a [dict] can be subscripted by
    one. *)
Definition getitem (result : json) (key : string) : error + json :=
  match result with
  | JObject members =>
      match dict_get members key with
      | Some v => inr v
      | None => inl (KeyError key)
      end
  | _ => inl TypeError
  end.

(** [simple_demo.transcribe_audio] (lines 6-37); [sent] collects the
    requests made. *)
Definition simple_demo_transcribe_audio (env : Env) (file_path : string)
    (quick any_lang : bool) (server_url : string) (sent : list Post)
  : (error + json) * list Post :=
  if negb (path_exists env file_path) then
    (inl (FileNotFoundError ("Audio file not found: " ++ file_path)), sent)
  else if negb (supported file_path) then
    (inl (ValueError "Unsupported audio format. Use WAV, MP3, M4A, or FLAC"), sent)
  else
    match open_rb env file_path with
    | inl e => (inl (Propagated e), sent)
    | inr f =>
        let request := {| url := server_url ++ "/transcribe";
                          upload_name := file_path;
                          upload_body := f;
                          params := query quick any_lang |} in
        let sent := sent ++ [request] in
        match requests_post env request with
        | inl e => (inl (Propagated e), sent)
        | inr response =>
            if (status_code response =? 200)%nat then
              match json_body response with
              | inl e => (inl (Propagated e), sent)
              | inr result => (getitem result "text", sent)
              end
            else
              (inl (PlainException ("Request failed: " ++ pretty (status_code response)
                                    ++ ", " ++ text response)), sent)
        end
    end.

(** What [demo.transcribe_sync] returns: the text and the elapsed time, or
    a message and [None]. *)
Inductive answer : Type :=
  | Transcribed (text elapsed_time : json)
  | Failed (message : string).

(** [demo.transcribe_sync] (lines 47-73) *)
Definition demo_transcribe_sync (env : Env) (audio_file_path : string)
    (quick any_lang : bool) (server_url : string) (sent : list Post)
  : (error + answer) * list Post :=
  match open_rb env audio_file_path with
  | inl e => (inl (Propagated e), sent)
  | inr f =>
      let request := {| url := server_url ++ "/transcribe";
                        upload_name := basename audio_file_path;
                        upload_body := f;
                        params := query quick any_lang |} in
      let sent := sent ++ [request] in
      match requests_post env request with
      | inl e => (inl (Propagated e), sent)
      | inr response =>
          if (status_code response =? 200)%nat then
            match json_body response with
            | inl e => (inl (Propagated e), sent)
            | inr result =>
                match getitem result "text" with
                | inl e => (inl e, sent)
                | inr t =>
                    match getitem result "elapsed_time" with
                    | inl e => (inl e, sent)
                    | inr d => (inr (Transcribed t d), sent)
                    end
                end
            end
          else
            (inr (Failed ("Error: " ++ pretty (status_code response) ++ " - "
                          ++ text response)), sent)
      end
  end.

(** A machine with one recording, and a server that answers every request
    with a transcription. *)
Definition studio : Env :=
  {| path_exists := fun p => String.eqb p "/home/u/Talk.WAV" || String.eqb p "/home/u/notes.txt";
     open_rb := fun p =>
       if String.eqb p "/home/u/Talk.WAV" then inr [Byte.x52; Byte.x49]
       else if String.eqb p "/home/u/notes.txt" then inr [Byte.x02]
       else inl (Exception "No such file or directory");
     requests_post := fun _ =>
       inr {| status_code := 200; text := "{...}";
              json_body := inr (JObject [("text", JString [72; 105]%N);
                                         ("elapsed_time", JNumber 1)]) |} |}.

(** The same machine while the model is still loading: the server answers
    500. *)
Definition studio_500 : Env :=
  {| path_exists := path_exists studio;
     open_rb := open_rb studio;
     requests_post := fun _ =>
       inr {| status_code := 500; text := "Internal Server Error";
              json_body := inl (Exception "Expecting value") |} |}.

End client.

(** * Properties *)

(** ** The definitions at work *)

Example swapaxes_2x3 :
  mx.swapaxes 1 2 {| mx.shape := [1; 2; 3]; mx.data := [1; 2; 3; 4; 5; 6]%Z |}
  = inr {| mx.shape := [1; 3; 2]; mx.data := [1; 4; 2; 5; 3; 6]%Z |}.
Proof. reflexivity. Qed.

Example swapaxes_needs_three_axes :
  mx.swapaxes 1 2 {| mx.shape := [2; 3]; mx.data := [1; 2; 3; 4; 5; 6]%Z |}
  = inl (Exception "[swapaxes] axis out of bounds").
Proof. reflexivity. Qed.

Example replace_decoder_key :
  pystr.replace "embed_positions.weight" "positional_embedding"
    "model.decoder.embed_positions.weight" = "model.decoder.positional_embedding".
Proof. reflexivity. Qed.

Example replace_all_occurrences : pystr.replace "ab" "x" "abcabab" = "xcxx".
Proof. reflexivity. Qed.

Example replace_empty_pattern : pystr.replace "" "-" "abc" = "-a-b-c-".
Proof. reflexivity. Qed.

Example strip_both_ends :
  pystr.strip [32; 10; 72; 105; 32; 33; 9; 160]%N = [72; 105; 32; 33]%N.
Proof. reflexivity. Qed.

Example round2_ties_to_even : (round2 (19 # 8) == 2.38)%Q /\ (round2 (1 # 8) == 0.12)%Q.
Proof. split; reflexivity. Qed.

(** ** Strings *)


Lemma lstrip_split s :
  exists l, s = l ++ pystr.lstrip s /\ Forall (fun c => pystr.isspace c = true) l.
Proof.
  induction s as [|c s [l [Hl Hsp]]]; [by exists []|].
  cbn [pystr.lstrip]. destruct (pystr.isspace c) eqn:Hc.
  - exists (c :: l). split; [by rewrite Hl at 1 | by constructor].
  - by exists [].
Qed.

Lemma lstrip_head s c r : pystr.lstrip s = c :: r -> pystr.isspace c = false.
Proof.
  induction s as [|d s IH]; [done|]. cbn [pystr.lstrip].
  destruct (pystr.isspace d) eqn:Hd; [done|]. by intros [= <- _].
Qed.

Lemma lstrip_last s : pystr.lstrip s <> [] -> last (pystr.lstrip s) = last s.
Proof.
  destruct (lstrip_split s) as [l [Hl _]]. intros Hne.
  rewrite Hl at 2. rewrite last_app.
  by destruct (last_is_Some (pystr.lstrip s)) as [_ [x ->]].
Qed.

Lemma rstrip_split s :
  exists r, s = pystr.rstrip s ++ r /\ Forall (fun c => pystr.isspace c = true) r.
Proof.
  destruct (lstrip_split (reverse s)) as [l [Hl Hsp]].
  exists (reverse l). split; [|by apply Forall_reverse].
  unfold pystr.rstrip. rewrite <- reverse_app, <- Hl. by rewrite reverse_involutive.
Qed.

(** [strip] keeps a contiguous piece and drops only white space around
    it. *)
Lemma strip_split s :
  exists l r, s = l ++ pystr.strip s ++ r
              /\ Forall (fun c => pystr.isspace c = true) l
              /\ Forall (fun c => pystr.isspace c = true) r.
Proof.
  destruct (rstrip_split s) as [r [Hr Hspr]].
  destruct (lstrip_split (pystr.rstrip s)) as [l [Hl Hspl]].
  exists l, r. repeat split; [|done..].
  unfold pystr.strip. rewrite app_assoc, <- Hl. exact Hr.
Qed.

Lemma strip_head s c r : pystr.strip s = c :: r -> pystr.isspace c = false.
Proof. apply lstrip_head. Qed.

Lemma strip_last s c : last (pystr.strip s) = Some c -> pystr.isspace c = false.
Proof.
  unfold pystr.strip. intros H.
  rewrite lstrip_last in H by (by intros E; rewrite E in H).
  unfold pystr.rstrip in H. rewrite last_reverse in H.
  destruct (pystr.lstrip (reverse s)) as [|d t] eqn:E; [done|].
  injection H as ->. by eapply lstrip_head.
Qed.

(** ** Arrays *)

Lemma ravel_lt sh idx : Forall2 lt idx sh -> mx.ravel sh idx < mx.size_of sh.
Proof.
  induction 1 as [|i d idx sh Hi _ IH]; cbn; [lia|].
  fold (mx.size_of sh). nia.
Qed.

Lemma unravel_ravel sh idx : Forall2 lt idx sh -> mx.unravel sh (mx.ravel sh idx) = idx.
Proof.
  induction 1 as [|i d idx sh Hi Hrest IH]; [done|].
  pose proof (ravel_lt _ _ Hrest) as Hr.
  cbn [mx.unravel mx.ravel].
  set (r := mx.ravel sh idx) in *. set (n := mx.size_of sh) in *.
  assert (Hn : n <> 0) by lia.
  rewrite Nat.div_add_l, (Nat.div_small r n), Nat.add_0_r by done.
  rewrite (Nat.mod_small i d) by done.
  rewrite Nat.add_comm, Nat.Div0.mod_add, (Nat.mod_small r n) by done.
  by rewrite IH.
Qed.

Lemma nth_fmap_seq (f : nat -> Z) len n :
  n < len -> nth n (f <$> seq 0 len) 0%Z = f n.
Proof.
  intros Hn. apply nth_lookup_Some.
  rewrite list_lookup_fmap, lookup_seq_lt by done. done.
Qed.

(** On a 3-dimensional array [swapaxes(1, 2)] cannot raise, exchanges the
    last two extents and keeps the number of elements. *)
Lemma swapaxes_3d v :
  mx.ndim v = 3 ->
  exists v', mx.swapaxes 1 2 v = inr v'
             /\ mx.shape v' = mx.swap 1 2 (mx.shape v)
             /\ mx.ndim v' = 3
             /\ length (mx.data v') = length (mx.data v).
Proof.
  intros Hn. unfold mx.swapaxes. rewrite Hn. cbn [Nat.ltb Nat.leb andb].
  eexists. split; [done|]. cbn [mx.shape mx.data].
  split; [done|]. split.
  - unfold mx.ndim in *. cbn [mx.shape].
    destruct (mx.shape v) as [|a [|b [|c [|? ?]]]]; done.
  - by rewrite length_fmap, length_seq.
Qed.

(** Element [(i, k, j)] of the result is element [(i, j, k)] of the
    argument. *)
Lemma swapaxes_elements a b c d v' i j k :
  length d = a * b * c ->
  mx.swapaxes 1 2 {| mx.shape := [a; b; c]; mx.data := d |} = inr v' ->
  i < a -> j < b -> k < c ->
  mx.shape v' = [a; c; b]
  /\ nth (mx.ravel [a; c; b] [i; k; j]) (mx.data v') 0%Z
     = nth (mx.ravel [a; b; c] [i; j; k]) d 0%Z.
Proof.
  intros Hlen Hsw Hi Hj Hk.
  assert (Hidx : Forall2 lt [i; k; j] [a; c; b]) by (repeat constructor; done).
  pose proof (ravel_lt _ _ Hidx) as Hlt.
  pose proof (unravel_ravel _ _ Hidx) as Hun.
  set (n := mx.ravel [a; c; b] [i; k; j]) in *.
  assert (Hn : n < length d) by (rewrite Hlen; cbn [mx.size_of foldr] in Hlt; nia).
  unfold mx.swapaxes in Hsw.
  change (mx.swap 1 2 (mx.shape _)) with [a; c; b] in Hsw.
  change (_ && _) with true in Hsw.
  cbv beta iota delta [mx.shape mx.data] in Hsw.
  assert (Hv : v' = {| mx.shape := [a; c; b];
                       mx.data := (fun m => nth (mx.ravel [a; b; c]
                                      (mx.swap 1 2 (mx.unravel [a; c; b] m))) d 0%Z)
                                  <$> seq 0 (length d) |}) by congruence.
  clear Hsw. subst v'. split; [done|].
  cbv beta iota delta [mx.data].
  rewrite (nth_fmap_seq _ _ _ Hn). by rewrite Hun.
Qed.

(** ** The parameter normalisation *)

Lemma normalize_entry_ok k v :
  exists v',
    normalize_entry (k, v)
      = inr (pystr.replace "embed_positions.weight" "positional_embedding" k, v')
    /\ (if pystr.contains "conv" k && (mx.ndim v =? 3)%nat
        then mx.swapaxes 1 2 v = inr v' /\ mx.shape v' = mx.swap 1 2 (mx.shape v)
        else v' = v).
Proof.
  unfold normalize_entry.
  destruct (pystr.contains "conv" k && (mx.ndim v =? 3)%nat) eqn:Hc.
  - apply andb_true_iff in Hc as [_ Hn%Nat.eqb_eq].
    destruct (swapaxes_3d v Hn) as (v' & -> & Hsh & _). by exists v'.
  - by exists v.
Qed.




(** ** Rounding *)





(** ** Rules for [wp] *)

Section Rules.

Context {S : Type}.

Lemma wp_run {A} (m : M S A) (Q : outcome A -> S -> Prop) s r s' :
  wp m Q s -> m s = (r, s') -> Q r s'.
Proof. unfold wp. intros H E. by rewrite E in H. Qed.

Lemma wp_mono {A} (m : M S A) (Q Q' : outcome A -> S -> Prop) s :
  wp m Q s -> (forall r s', Q r s' -> Q' r s') -> wp m Q' s.
Proof. unfold wp. auto. Qed.

Lemma wp_and {A} (m : M S A) (Q1 Q2 : outcome A -> S -> Prop) s :
  wp m Q1 s -> wp m Q2 s -> wp m (fun r s' => Q1 r s' /\ Q2 r s') s.
Proof. by split. Qed.

Lemma wp_ret {A} (a : A) (Q : outcome A -> S -> Prop) s :
  Q (Return a) s -> wp (ret a) Q s.
Proof. done. Qed.

Lemma wp_raise {A} e (Q : outcome A -> S -> Prop) s :
  Q (Raise e) s -> wp (raise e) Q s.
Proof. done. Qed.

Lemma wp_gets {A} (f : S -> A) (Q : outcome A -> S -> Prop) s :
  Q (Return (f s)) s -> wp (gets f) Q s.
Proof. done. Qed.

Lemma wp_modify (f : S -> S) (Q : outcome unit -> S -> Prop) s :
  Q (Return tt) (f s) -> wp (modify f) Q s.
Proof. done. Qed.

Lemma wp_bind {A B} (m : M S A) (k : A -> M S B) (Q : outcome B -> S -> Prop) s :
  wp m (fun r s' =>
          match r with
          | Return a => wp (k a) Q s'
          | Raise e => Q (Raise e) s'
          | Blocked => Q Blocked s'
          end) s ->
  wp (bind m k) Q s.
Proof. unfold wp, bind. by destruct (m s) as [[a|e|] s']. Qed.

Lemma wp_try_except {A} (m : M S A) h (Q : outcome A -> S -> Prop) s :
  wp m (fun r s' =>
          match r with
          | Raise e => wp (h e) Q s'
          | _ => Q r s'
          end) s ->
  wp (try_except m h) Q s.
Proof. unfold wp, try_except. by destruct (m s) as [[a|e|] s']. Qed.

Lemma wp_try_finally {A} (m : M S A) f (Q : outcome A -> S -> Prop) s :
  wp m (fun r s' =>
          match r with
          | Blocked => Q Blocked s'
          | _ => wp f (fun rf s'' =>
                         match rf with
                         | Return _ => Q r s''
                         | Raise e => Q (Raise e) s''
                         | Blocked => Q Blocked s''
                         end) s'
          end) s ->
  wp (try_finally m f) Q s.
Proof.
  unfold wp, try_finally.
  destruct (m s) as [[a|e|] s']; cbn; [| |done];
    by destruct (f s') as [[[]|e'|] s''].
Qed.

Lemma wp_of_result {A} (x : exn + A) (Q : outcome A -> S -> Prop) s :
  match x with inl e => Q (Raise e) s | inr a => Q (Return a) s end ->
  wp (of_result x) Q s.
Proof. by destruct x. Qed.

Lemma wp_raise_if (o : option exn) (Q : outcome unit -> S -> Prop) s :
  match o with Some e => Q (Raise e) s | None => Q (Return tt) s end ->
  wp (raise_if o) Q s.
Proof. by destruct o. Qed.


End Rules.

Lemma wp_lift {A} (m : M World A) (Q : outcome A -> Frame -> Prop) fr :
  wp m (fun r w => Q r {| world := w; tmp_file_path := tmp_file_path fr |}) (world fr) ->
  wp (lift m) Q fr.
Proof. unfold wp, lift. by destruct (m (world fr)). Qed.

Ltac wp_simpl :=
  cbv beta iota;
  cbn [world tmp_file_path fst snd
       BASE_DIR model model_loaded loader_thread fs log trace dirs files
       set_model set_model_loaded set_loader_thread set_fs add_log add_call
       set_dirs set_files enabled_for root_level].

(** One step of symbolic execution; an outcome decided by the surroundings
    splits the goal. *)
Ltac wp_step :=
  lazymatch goal with
  | |- wp (bind _ _) _ _ => apply wp_bind
  | |- wp (ret _) _ _ => apply wp_ret
  | |- wp (raise _) _ _ => apply wp_raise
  | |- wp (gets _) _ _ => apply wp_gets
  | |- wp (modify _) _ _ => apply wp_modify
  | |- wp (lift _) _ _ => apply wp_lift
  | |- wp (try_except _ _) _ _ => apply wp_try_except
  | |- wp (try_finally _ _) _ _ => apply wp_try_finally
  | |- wp (of_result ?x) _ _ => apply wp_of_result; destruct x eqn:?
  | |- wp (raise_if ?o) _ _ => apply wp_raise_if; destruct o eqn:?
  | |- wp (match ?x with _ => _ end) _ _ => destruct x eqn:?
  end; wp_simpl.

(** Turn a goal about the result of a run into a [wp] goal. *)
Ltac wp_from H :=
  match type of H with
  | ?m ?s = (?r, ?s') =>
      pattern r, s';
      match goal with |- ?Q r s' => refine (wp_run m Q s r s' _ H) end
  end.

Ltac unfold_loader :=
  unfold load_model, Path_mkdir, hf_snapshot_download, os_system_cp, read_file,
    Transcriber_new, Module_load_weights, mx_eval, Event_set, logger_info,
    logger_error, Path_exists.

Ltac unfold_handler :=
  unfold after_gate, try_block, except_block, cleanup, with_closing, transcribe_sync,
    os_makedirs, UploadFile_read, filename_suffix, NamedTemporaryFile, tmp_write,
    os_path_exists, os_remove, Path_exists, time_time, logger_error,
    assign_tmp_file_path.

Lemma snoc_app {A} (l : list A) (a : A) (m : list A) : (l ++ [a]) ++ m = l ++ a :: m.
Proof. by rewrite <- app_assoc. Qed.

Ltac solve_trace :=
  rewrite ?snoc_app;
  first [ exists []; split; [by rewrite app_nil_r | by constructor]
        | eexists; split; [reflexivity | repeat constructor; done] ].

Lemma exists_after_insert (p : string) (c : bytes) (m : gmap string bytes) (d : gset string) :
  bool_decide (is_Some (<[p := c]> m !! p)) || bool_decide (p ∈ d) = true.
Proof. rewrite lookup_insert_eq. by rewrite bool_decide_eq_true_2 by eauto. Qed.

(** Branches that the state of the file system rules out. *)
Ltac fs_absurd :=
  match goal with
  | H : bool_decide (is_Some (<[?p := _]> _ !! ?p)) || _ = false |- _ =>
      by rewrite exists_after_insert in H
  | H : <[?p := _]> _ !! ?p = None |- _ => by rewrite lookup_insert_eq in H
  end.

(** ** The loader thread and the gate *)

Lemma load_model_post le w :
  wp (load_model le)
     (fun r w' =>
        model_loaded w' = true
        /\ BASE_DIR w' = BASE_DIR w
        /\ loader_thread w' = loader_thread w
        /\ (exists calls, trace w' = trace w ++ calls /\ Forall gate_call calls)
        /\ dom (files (fs w)) ⊆ dom (files (fs w'))
        /\ match r with
           | Return _ => is_Some (model w') /\ log w' = log w
           | Raise e =>
               model w' = model w
               /\ log w' = log w ++ [(ERROR, ("Failed to load model: " ++ str_exn e)%string)]
           | Blocked => False
           end) w.
Proof.
  unfold_loader.
  repeat wp_step.
  all: split_and!; try done; try solve_trace; try set_solver.
Qed.

Lemma Thread_run_post le w :
  let w' := Thread_run le w in
  model_loaded w' = true
  /\ BASE_DIR w' = BASE_DIR w
  /\ loader_thread w' = None
  /\ (exists calls, trace w' = trace w ++ calls /\ Forall gate_call calls)
  /\ dom (files (fs w)) ⊆ dom (files (fs w'))
  /\ ((is_Some (model w') /\ log w' = log w
       /\ (load_model le (set_loader_thread None w)).1 = Return tt)
      \/ (exists e, (load_model le (set_loader_thread None w)).1 = Raise e
                    /\ model w' = model w
                    /\ log w' = log w ++ [(ERROR, ("Failed to load model: " ++ str_exn e)%string)])).
Proof.
  pose proof (load_model_post le (set_loader_thread None w)) as H.
  unfold wp in H. unfold Thread_run.
  destruct (load_model le (set_loader_thread None w)) as [[[]|e|] w1]; cbn in *.
  - destruct H as (? & ? & ? & (calls & ? & ?) & ? & ? & ?).
    repeat split; eauto.
  - destruct H as (? & ? & ? & (calls & Ht & ?) & ? & ? & ?).
    repeat split; eauto.
    exists (calls ++ [CallExcepthook e]). split.
    + by rewrite Ht, app_assoc.
    + apply Forall_app. split; [done|]. by repeat constructor.
  - by destruct H as (? & ? & ? & ? & ? & ?).
Qed.

(** Waiting ends once the loader thread has run. *)
Lemma Event_wait_pending le w :
  model_loaded w = false -> loader_thread w = Some le ->
  Event_wait w = (Return tt, Thread_run le w).
Proof.
  intros Hf Ht. unfold Event_wait. rewrite Hf, Ht.
  by destruct (Thread_run_post le w) as [-> _].
Qed.

Lemma gate_passed_facts t w w0 :
  gate_passed t w w0 ->
  model_loaded w0 = true
  /\ BASE_DIR w0 = BASE_DIR w
  /\ (exists calls, trace w0 = trace w ++ CallTime t :: calls /\ Forall gate_call calls)
  /\ dom (files (fs w)) ⊆ dom (files (fs w0)).
Proof.
  intros [[Hset ->]|[Hclear (le & Hle & ->)]].
  - repeat split; [done..| |done]. by exists [].
  - destruct (Thread_run_post le (add_call CallWait (add_call (CallTime t) w)))
      as (? & ? & _ & (calls & Ht & Hc) & ? & _).
    repeat split; [done..| |done].
    exists (CallWait :: calls). split; [|by constructor].
    rewrite Ht. cbn. by rewrite <- !app_assoc.
Qed.

Lemma gate_passed_unique t w w1 w2 :
  gate_passed t w w1 -> gate_passed t w w2 -> w1 = w2.
Proof.
  intros [[H1 ->]|[H1 (le1 & Hl1 & ->)]] [[H2 ->]|[H2 (le2 & Hl2 & ->)]];
    congruence.
Qed.

(** ** Past the gate: lines 148-184 *)

Section PastTheGate.

Context (env : Env) (file : UploadFile) (q a : bool) (t : Q) (w0 : World).


Lemma after_gate_unavailable fr :
  model (world fr) = None ->
  after_gate env file q a t fr = (Raise (HTTPException 500 "Model failed to load."), fr).
Proof.
  intros Hm. unfold after_gate, bind, lift, gets, raise. cbn. rewrite Hm.
  by destruct fr.
Qed.

(** The handler proper never waits, and only appends to the trace. *)
Lemma after_gate_calls :
  wp (after_gate env file q a t)
     (fun r fr =>
        r <> Blocked
        /\ model (world fr) = model w0
        /\ model_loaded (world fr) = model_loaded w0
        /\ loader_thread (world fr) = loader_thread w0
        /\ exists calls, trace (world fr) = trace w0 ++ calls /\ Forall request_call calls)
     (enter w0).
Proof.
  unfold_handler. unfold enter.
  repeat wp_step.
  all: try congruence.
  all: split_and!; try done; try congruence; solve_trace.
Qed.


(** The model is called on the recorded path, which holds the upload, with
    the request's flags; a completed request carries the stripped text and
    the same flags. *)
Lemma after_gate_model_call :
  wp (after_gate env file q a t)
     (fun r fr =>
        exists calls,
          trace (world fr) = trace w0 ++ calls
          /\ (forall p' a' q', CallModel p' a' q' ∈ calls ->
                tmp_file_path fr = Some p' /\ a' = a /\ q' = q)
          /\ match r with
             | Return resp =>
                 quick_mode resp = q /\ any_lang resp = a
                 /\ exists p mdl f content raw,
                      tmp_file_path fr = Some p
                      /\ CallModel p a q ∈ calls
                      /\ model w0 = Some mdl
                      /\ read file = inr content
                      /\ files f !! p = Some content
                      /\ infer env mdl f p a q = inr raw
                      /\ text resp = pystr.strip raw
             | _ => True
             end)
     (enter w0).
Proof.
  unfold_handler. unfold enter.
  repeat wp_step.
  all: try fs_absurd; try congruence.
  all: rewrite ?snoc_app.
  all: eexists; split; [first [reflexivity | symmetry; apply app_nil_r]|].
  all: split;
    [intros p' a' q' Hin;
     repeat (apply elem_of_cons in Hin as [Hin|Hin];
             [first [discriminate Hin | by injection Hin as -> -> ->]|]);
     by apply elem_of_nil in Hin|].
  all: try done.
  all: cbn [quick_mode any_lang text]; split_and!; try done.
  all: match goal with
       | H : infer _ ?m ?f ?p _ _ = inr ?raw |- _ =>
           exists p, m, f; eexists _, raw;
           split_and!; [done | set_solver | congruence | done
                       | apply lookup_insert_eq | exact H | done]
       end.
Qed.


(** A request that fails with [tmp_file_path] unassigned: the caller gets a
    fixed 500, the [finally] block removes nothing, and no file is lost. *)
Lemma after_gate_unassigned :
  wp (after_gate env file q a t)
     (fun r fr =>
        tmp_file_path fr = None ->
        forall e, r = Raise e ->
          e = HTTPException 500
                match model w0 with
                | Some _ => "Transcription failed."
                | None => "Model failed to load."
                end
          /\ (exists calls, trace (world fr) = trace w0 ++ calls
                            /\ forall p, CallRemove p ∉ calls)
          /\ dom (files (fs w0)) ⊆ dom (files (fs (world fr))))
     (enter w0).
Proof.
  unfold_handler. unfold enter.
  repeat wp_step.
  all: intros Hnone e' He'; try discriminate Hnone; try discriminate He'.
  all: injection He' as <-.
  all: split_and!; [done | | set_solver].
  all: rewrite ?snoc_app.
  all: first [ exists []; split; [by rewrite app_nil_r|]
             | eexists; split; [reflexivity|] ].
  all: intros p' Hin;
       repeat (apply elem_of_cons in Hin as [Hin|Hin]; [discriminate Hin|]);
       by apply elem_of_nil in Hin.
Qed.

End PastTheGate.

(** ** The handler as a whole *)

Section Handler.

Context (env : Env) (file : UploadFile) (quick anylang : bool) (w : World).

(** A request either gets past the gate or never resumes; the latter needs a
    clear event without a loader thread. *)
Lemma wp_transcribe_audio (Q : outcome Transcription -> Frame -> Prop) :
  (forall w0, gate_passed (t_start env) w w0 ->
              wp (after_gate env file quick anylang (t_start env)) Q (enter w0)) ->
  (model_loaded w = false -> loader_thread w = None ->
   Q Blocked (enter (add_call CallWait (add_call (CallTime (t_start env)) w)))) ->
  wp (transcribe_audio env file quick anylang) Q (enter w).
Proof.
  intros Hpass Hblock. unfold transcribe_audio, await_ready, time_time, Event_is_set.
  unfold enter. do 9 wp_step.
  destruct (model_loaded w) eqn:Hset; cbn [negb]; wp_step.
  - apply Hpass. by left.
  - do 2 wp_step.
    destruct (loader_thread w) as [le|] eqn:Hle.
    + unfold wp. erewrite Event_wait_pending; [|done..]. cbn [fst snd].
      apply Hpass. right. split; [done|]. by exists le.
    + unfold wp, Event_wait. cbn. rewrite Hset, Hle. cbn. by apply Hblock.
Qed.


Lemma transcribe_audio_unavailable w0 :
  gate_passed (t_start env) w w0 ->
  model w0 = None ->
  transcribe_audio env file quick anylang (enter w)
  = (Raise (HTTPException 500 "Model failed to load."), enter w0).
Proof.
  intros Hgate Hm.
  destruct (transcribe_audio env file quick anylang (enter w)) as [r fr] eqn:Hrun.
  wp_from Hrun. apply wp_transcribe_audio.
  - intros w0' Hgate'. rewrite (gate_passed_unique _ _ _ _ Hgate' Hgate).
    unfold wp. by rewrite after_gate_unavailable.
  - intros Hclear Hnone. destruct Hgate as [[? _]|[_ (le & ? & _)]]; congruence.
Qed.



Lemma transcribe_audio_model_call :
  wp (transcribe_audio env file quick anylang)
     (fun r fr =>
        exists calls,
          trace (world fr) = trace w ++ calls
          /\ (forall p' a' q', CallModel p' a' q' ∈ calls ->
                tmp_file_path fr = Some p' /\ a' = anylang /\ q' = quick)
          /\ match r with
             | Return resp =>
                 quick_mode resp = quick /\ any_lang resp = anylang
                 /\ exists p mdl f content raw,
                      tmp_file_path fr = Some p
                      /\ CallModel p anylang quick ∈ calls
                      /\ model (world fr) = Some mdl
                      /\ read file = inr content
                      /\ files f !! p = Some content
                      /\ infer env mdl f p anylang quick = inr raw
                      /\ text resp = pystr.strip raw
             | _ => True
             end)
     (enter w).
Proof.
  apply wp_transcribe_audio.
  - intros w0 Hgate.
    destruct (gate_passed_facts _ _ _ Hgate) as (_ & _ & (gate & Hg & Hgc) & _).
    eapply wp_mono;
      [apply wp_and; [apply after_gate_model_call | apply after_gate_calls]|].
    intros r fr [(calls & Htrace & Hm & Hr) (_ & Hmodel & _)].
    exists (CallTime (t_start env) :: gate ++ calls). split_and!.
    + rewrite Htrace, Hg. cbn. by rewrite <- !app_assoc.
    + intros p' a' q' [?|[Hin|Hin]%elem_of_app]%elem_of_cons; [done| |by apply Hm].
      by apply (proj1 (Forall_forall _ _) Hgc) in Hin.
    + destruct r as [resp| |]; [|done..].
      destruct Hr as (? & ? & p & mdl & f & content & raw & ? & ? & ? & ? & ? & ? & ?).
      split_and!; [done..|]. exists p, mdl, f, content, raw.
      split_and!; try done; [|congruence].
      apply elem_of_cons. right. apply elem_of_app. by right.
  - intros _ _. exists [CallTime (t_start env); CallWait]. cbn. split_and!; [|by intros ??? [?|[?|?%elem_of_nil]%elem_of_cons]%elem_of_cons|done].
    by rewrite <- app_assoc.
Qed.

Lemma transcribe_audio_unassigned :
  wp (transcribe_audio env file quick anylang)
     (fun r fr =>
        tmp_file_path fr = None ->
        forall e, r = Raise e ->
          e = HTTPException 500
                match model (world fr) with
                | Some _ => "Transcription failed."
                | None => "Model failed to load."
                end
          /\ (exists calls, trace (world fr) = trace w ++ calls
                            /\ forall p, CallRemove p ∉ calls)
          /\ dom (files (fs w)) ⊆ dom (files (fs (world fr))))
     (enter w).
Proof.
  apply wp_transcribe_audio; [|done].
  intros w0 Hgate.
  destruct (gate_passed_facts _ _ _ Hgate) as (_ & _ & (gate & Hg & Hgc) & Hdom).
  eapply wp_mono;
    [apply wp_and; [apply after_gate_unassigned | apply after_gate_calls]|].
  intros r fr [Hpost (_ & Hmodel & _)] Hnone e He.
  destruct (Hpost Hnone e He) as (-> & (calls & Htrace & Hcalls) & Hdom').
  rewrite Hmodel. split_and!; [done| |set_solver].
  exists (CallTime (t_start env) :: gate ++ calls). split.
  - rewrite Htrace, Hg. cbn. by rewrite <- !app_assoc.
  - intros p [?|[Hin|Hin]%elem_of_app]%elem_of_cons; [done| |by apply (Hcalls p)].
    by apply (proj1 (Forall_forall _ _) Hgc) in Hin.
Qed.

End Handler.



(** ** The claims *)




(** A write that raises inside the [with] block leaves [tmp_file_path]
    unassigned although the file exists: the [finally] block skips it. *)
Example write_failure_leaves_created_file :
  let run := transcribe_audio sample.disk_full sample.clip true false (enter sample.ready) in
  run.1 = Raise (HTTPException 500 "Transcription failed.")
  /\ tmp_file_path run.2 = None
  /\ files (fs sample.ready) !! "/tmp/tmpa1b2c3d4.wav" = None
  /\ files (fs (world run.2)) !! "/tmp/tmpa1b2c3d4.wav" = Some []
  /\ trace (world run.2)
     = [CallTime 10; CallMakedirs "/srv/app/data/uploads"; CallRead;
        CallNamedTemporaryFile ".wav"; CallWrite "/tmp/tmpa1b2c3d4.wav"].
Proof. vm_compute. by split_and!. Qed.

(** C2, as amended.  [model_loaded.set()] on an event that is already set
    raises nothing and changes nothing: a second publication is silently
    accepted. *)
Theorem second_set_is_silent w :
  model_loaded w = true -> Event_set w = (Return tt, w).
Proof.
  intros Hset. unfold Event_set, modify. f_equal.
  destruct w; cbn in *. by subst.
Qed.

Lemma second_set_is_silent_witness :
  model_loaded sample.ready = true
  /\ Event_set sample.ready = (Return tt, sample.ready).
Proof. split; [reflexivity | apply second_set_is_silent; reflexivity]. Defined.

(** C2, counterexample.  With the model loaded and the event set, one more
    [set()], and even one [set()] after another, returns normally. *)
Lemma second_set_not_detected :
  (Event_set sample.ready).1 = Return tt
  /\ (bind Event_set (fun _ => Event_set) sample.starting).1 = Return tt
  /\ ~ second_set_detected.
Proof.
  split; [reflexivity|]. split; [reflexivity|].
  intros H. destruct (H sample.ready eq_refl) as [e He]. discriminate He.
Qed.



(** C4.  A request that finds the event set does not wait: the gate code
    returns at once and changes nothing, the request is never left
    suspended, and [model_loaded.wait] is not among the calls it makes. *)
Theorem set_gate_does_not_wait env file quick any_lang w r fr :
  model_loaded w = true ->
  transcribe_audio env file quick any_lang (enter w) = (r, fr) ->
  await_ready (enter w) = (Return tt, enter w)
  /\ r <> Blocked
  /\ exists calls, trace (world fr) = trace w ++ calls /\ CallWait ∉ calls.
Proof.
  intros Hset Hrun. split.
  { unfold await_ready, bind, lift, Event_is_set, gets, ret. cbn. by rewrite Hset. }
  wp_from Hrun. apply wp_transcribe_audio; [|congruence].
  intros w0 [[_ ->]|[Hclear _]]; [|congruence].
  eapply wp_mono; [apply after_gate_calls|].
  intros r' fr' (Hnb & _ & _ & _ & calls & Htrace & Hcalls). split; [done|].
  exists (CallTime (t_start env) :: calls). split.
  - rewrite Htrace. cbn. by rewrite <- app_assoc.
  - intros [?|Hin]%elem_of_cons; [done|].
    by apply (proj1 (Forall_forall _ _) Hcalls) in Hin.
Qed.

Lemma set_gate_does_not_wait_witness :
  let run := transcribe_audio sample.calm sample.clip true false (enter sample.ready) in
  model_loaded sample.ready = true /\ run.1 <> Blocked.
Proof.
  intros run. split; [reflexivity|].
  exact (proj1 (proj2 (set_gate_does_not_wait sample.calm sample.clip true false
                         sample.ready run.1 run.2 eq_refl (surjective_pairing run)))).
Defined.

(** C5.  When the request is past the gate and finds no model, whether the
    event was already set or the load failed while the request waited, the
    caller gets the error status 500 with the fixed message ["Model failed
    to load."], which carries nothing of what went wrong in the loader. *)
Theorem unavailable_is_generic_500 env file quick any_lang w w0 :
  gate_passed (t_start env) w w0 ->
  model w0 = None ->
  exists status detail,
    transcribe_audio env file quick any_lang (enter w)
    = (Raise (HTTPException status detail), enter w0)
    /\ status = 500 /\ 400 <= status < 600
    /\ detail = "Model failed to load.".
Proof.
  intros Hgate Hm. exists 500, "Model failed to load.".
  split; [by apply transcribe_audio_unavailable|]. split; [done|]. split; [lia|done].
Qed.

Lemma unavailable_is_generic_500_witness :
  let w0 := Thread_run sample.offline
              (add_call CallWait (add_call (CallTime 10) sample.starting)) in
  gate_passed 10 sample.starting w0
  /\ model w0 = None
  /\ (transcribe_audio sample.calm sample.clip true false (enter sample.starting)).1
     = Raise (HTTPException 500 "Model failed to load.").
Proof.
  intros w0.
  assert (Hg : gate_passed 10 sample.starting w0).
  { right. split; [reflexivity|]. exists sample.offline. split; reflexivity. }
  assert (Hm : model w0 = None) by (vm_compute; reflexivity).
  split; [exact Hg|]. split; [exact Hm|].
  destruct (unavailable_is_generic_500 sample.calm sample.clip true false
              sample.starting w0 Hg Hm) as (st & d & -> & -> & _ & ->).
  reflexivity.
Defined.




(** C7.  Whatever the request, every call of the model it makes has the
    recorded staged path and the caller's [any_lang] and [quick]; a
    completed request made that call on the file holding the upload, and its
    response carries the same two flags and the model's text with the white
    space at both ends, and only that, taken off. *)
Theorem flags_and_path_passed_through env file quick anylang w r fr :
  transcribe_audio env file quick anylang (enter w) = (r, fr) ->
  exists calls,
    trace (world fr) = trace w ++ calls
    /\ (forall p' a' q', CallModel p' a' q' ∈ calls ->
          tmp_file_path fr = Some p' /\ a' = anylang /\ q' = quick)
    /\ forall resp, r = Return resp ->
         quick_mode resp = quick /\ any_lang resp = anylang
         /\ exists p mdl f content raw,
              tmp_file_path fr = Some p
              /\ CallModel p anylang quick ∈ calls
              /\ model (world fr) = Some mdl
              /\ read file = inr content
              /\ files f !! p = Some content
              /\ infer env mdl f p anylang quick = inr raw
              /\ text resp = pystr.strip raw
              /\ (exists l r',
                    raw = l ++ text resp ++ r'
                    /\ Forall (fun c => pystr.isspace c = true) l
                    /\ Forall (fun c => pystr.isspace c = true) r')
              /\ (forall c, head (text resp) = Some c -> pystr.isspace c = false)
              /\ (forall c, last (text resp) = Some c -> pystr.isspace c = false).
Proof.
  intros Hrun.
  destruct (wp_run _ _ _ _ _ (transcribe_audio_model_call env file quick anylang w) Hrun)
    as (calls & Htrace & Hcalls & Hr).
  exists calls. split; [done|]. split; [done|].
  intros resp ->.
  destruct Hr as (? & ? & p & mdl & f & content & raw & ? & ? & ? & ? & ? & ? & Htext).
  split_and!; [done..|]. exists p, mdl, f, content, raw.
  split_and!; try done.
  - rewrite Htext. apply strip_split.
  - rewrite Htext. intros c Hc.
    destruct (pystr.strip raw) as [|c' s'] eqn:E; [done|].
    injection Hc as <-. by eapply strip_head.
  - rewrite Htext. apply strip_last.
Qed.

Lemma flags_and_path_passed_through_witness :
  let run := transcribe_audio sample.calm sample.clip true false (enter sample.ready) in
  exists resp,
    run.1 = Return resp
    /\ quick_mode resp = true /\ any_lang resp = false
    /\ text resp = [72; 105]%N.
Proof.
  intros run.
  destruct (flags_and_path_passed_through sample.calm sample.clip true false
              sample.ready run.1 run.2 (surjective_pairing run))
    as (calls & _ & _ & Hresp).
  assert (Hr : exists resp, run.1 = Return resp /\ text resp = [72; 105]%N).
  { vm_compute. eexists. split; reflexivity. }
  destruct Hr as (resp & Hrun & Htext). exists resp.
  destruct (Hresp resp Hrun) as (Hq & Ha & _).
  split_and!; done.
Defined.


(** C9.  If the request fails and [tmp_file_path] was never assigned, the
    [finally] block has called no [os.remove] and raised nothing of its own:
    no file that existed before is gone, and the caller gets the fixed 500
    response, ["Transcription failed."] when the model was there. *)
Theorem unassigned_path_no_removal env file quick anylang w e fr :
  transcribe_audio env file quick anylang (enter w) = (Raise e, fr) ->
  tmp_file_path fr = None ->
  e = HTTPException 500
        match model (world fr) with
        | Some _ => "Transcription failed."
        | None => "Model failed to load."
        end
  /\ (exists calls, trace (world fr) = trace w ++ calls
                    /\ forall p, CallRemove p ∉ calls)
  /\ dom (files (fs w)) ⊆ dom (files (fs (world fr)))
  /\ cleanup env fr = (Return tt, fr).
Proof.
  intros Hrun Hnone.
  destruct (wp_run _ _ _ _ _ (transcribe_audio_unassigned env file quick anylang w) Hrun
              Hnone e eq_refl) as (He & Hcalls & Hdom).
  split_and!; try done.
  unfold cleanup, bind, gets, ret. by rewrite Hnone.
Qed.

Lemma unassigned_path_no_removal_witness :
  let run := transcribe_audio sample.calm sample.broken_upload true false
               (enter sample.ready) in
  tmp_file_path run.2 = None
  /\ run.1 = Raise (HTTPException 500 "Transcription failed.").
Proof.
  intros run.
  assert (Hn : tmp_file_path run.2 = None) by (vm_compute; reflexivity).
  assert (Hr : exists e, run.1 = Raise e) by (vm_compute; eauto).
  destruct Hr as [e He]. split; [exact Hn|]. rewrite He. f_equal.
  assert (Hrun : run = (Raise e, run.2)) by (rewrite <- He; apply surjective_pairing).
  destruct (unassigned_path_no_removal sample.calm sample.broken_upload true false
              sample.ready e run.2 Hrun Hn) as [-> _].
  vm_compute. reflexivity.
Defined.

(** C10.  With the event set and no model, the handler raises before the
    [try] statement: the upload is not read, no directory or file is made,
    [tmp_file_path] stays unassigned, and the only trace of the request is
    its clock reading. *)
Theorem unavailable_changes_nothing env file quick any_lang w :
  model_loaded w = true ->
  model w = None ->
  exists fr,
    transcribe_audio env file quick any_lang (enter w)
    = (Raise (HTTPException 500 "Model failed to load."), fr)
    /\ fs (world fr) = fs w
    /\ tmp_file_path fr = None
    /\ trace (world fr) = trace w ++ [CallTime (t_start env)]
    /\ log (world fr) = log w.
Proof.
  intros Hset Hm. exists (enter (add_call (CallTime (t_start env)) w)).
  split; [|done]. apply transcribe_audio_unavailable; [by left | done].
Qed.

Lemma unavailable_changes_nothing_witness :
  let w := Thread_run sample.offline sample.starting in
  model_loaded w = true
  /\ model w = None
  /\ fs (world (transcribe_audio sample.calm sample.clip true false (enter w)).2) = fs w.
Proof.
  intros w.
  assert (Hs : model_loaded w = true) by (vm_compute; reflexivity).
  assert (Hm : model w = None) by (vm_compute; reflexivity).
  split; [exact Hs|]. split; [exact Hm|].
  destruct (unavailable_changes_nothing sample.calm sample.clip true false w Hs Hm)
    as (fr & -> & Hfs & _).
  exact Hfs.
Defined.

(** * Further properties of [main.py] *)

(** ** Temporary names *)


Lemma fresh_name_spec dir suffix cands (m : gmap string bytes) p :
  fresh_name dir suffix cands m = Some p ->
  m !! p = None
  /\ exists c, c ∈ cands /\ p = path_join dir ("tmp" ++ c ++ suffix).
Proof.
  induction cands as [|c cs IH]; [done|]. cbn [fresh_name].
  destruct (m !! path_join dir ("tmp" ++ c ++ suffix)) eqn:Hl.
  - intros [? (c' & ? & ?)]%IH. split; [done|]. exists c'. split; [by right|done].
  - intros [= <-]. split; [done|]. exists c. split; [by left|done].
Qed.

Section PastTheGateMore.

Context (env : Env) (file : UploadFile) (q a : bool) (t : Q) (w0 : World).

(** The handler proper neither changes nor deletes a file that was there. *)
Lemma after_gate_keeps_files :
  wp (after_gate env file q a t)
     (fun r fr =>
        forall p c, files (fs w0) !! p = Some c -> files (fs (world fr)) !! p = Some c)
     (enter w0).
Proof.
  unfold_handler. unfold enter.
  repeat wp_step.
  all: intros p c Hp; try done.
  all: match goal with
       | H : fresh_name _ _ _ _ = Some ?s |- _ =>
           apply fresh_name_spec in H as [Hfresh _];
           assert (s <> p) by congruence;
           assert (p <> s) by congruence
       end.
  all: by rewrite ?lookup_delete_ne, ?lookup_insert_ne by done.
Qed.

(** Unless the write or the removal fails, the files are as before. *)
Lemma after_gate_restores_files :
  write_exn env = None -> remove_exn env = None ->
  wp (after_gate env file q a t)
     (fun r fr =>
        files (fs (world fr)) = files (fs w0)
        /\ dirs (fs w0) ⊆ dirs (fs (world fr))
        /\ dirs (fs (world fr)) ⊆ {[ UPLOAD_DIR w0 ]} ∪ dirs (fs w0))
     (enter w0).
Proof.
  intros Hw Hr. unfold_handler. unfold enter.
  repeat wp_step.
  all: try congruence; try fs_absurd.
  all: split; [|set_solver].
  all: try done.
  all: match goal with
       | H : fresh_name _ _ _ _ = Some ?s |- _ =>
           apply fresh_name_spec in H as [Hfresh _]
       end.
  all: by rewrite insert_insert_eq, delete_insert_id.
Qed.



End PastTheGateMore.

(** ** Whole requests *)



(** X2.  A request that finds the event set leaves the module's globals
    alone: the same model, the event still set, the loader thread as it
    was. *)
Theorem request_keeps_globals env file quick anylang w r fr :
  model_loaded w = true ->
  transcribe_audio env file quick anylang (enter w) = (r, fr) ->
  model (world fr) = model w
  /\ model_loaded (world fr) = true
  /\ loader_thread (world fr) = loader_thread w.
Proof.
  intros Hset Hrun. wp_from Hrun. apply wp_transcribe_audio; [|congruence].
  intros w0 [[_ ->]|[? _]]; [|congruence].
  eapply wp_mono; [apply after_gate_calls|].
  intros r' fr' (_ & ? & ? & ? & _). cbn in *. split_and!; congruence.
Qed.

Lemma request_keeps_globals_witness :
  let run := transcribe_audio sample.undeletable sample.clip true false
               (enter sample.ready) in
  model_loaded sample.ready = true
  /\ model (world run.2) = Some sample.tiny.
Proof.
  intros run. split; [reflexivity|].
  exact (proj1 (request_keeps_globals sample.undeletable sample.clip true false
                  sample.ready run.1 run.2 eq_refl (surjective_pairing run))).
Defined.



(** X4.  A request that finds the event set neither changes nor deletes any
    file that existed when it came in, whatever fails on the way: the
    temporary file always gets a name that is not in use. *)
Theorem request_keeps_existing_files env file quick anylang w r fr p c :
  model_loaded w = true ->
  transcribe_audio env file quick anylang (enter w) = (r, fr) ->
  files (fs w) !! p = Some c ->
  files (fs (world fr)) !! p = Some c.
Proof.
  intros Hset Hrun. revert p c. wp_from Hrun. apply wp_transcribe_audio; [|congruence].
  intros w0 [[_ ->]|[? _]]; [|congruence].
  eapply wp_mono; [apply after_gate_keeps_files|]. by intros r' fr' H.
Qed.


Lemma request_keeps_existing_files_witness :
  let run := transcribe_audio crowded.env sample.clip true false (enter crowded.world) in
  model_loaded crowded.world = true
  /\ files (fs crowded.world) !! "/tmp/tmpa1b2c3d4.wav" = Some [Byte.x01]
  /\ files (fs (world run.2)) !! "/tmp/tmpa1b2c3d4.wav" = Some [Byte.x01].
Proof.
  intros run.
  assert (Hf : files (fs crowded.world) !! "/tmp/tmpa1b2c3d4.wav" = Some [Byte.x01])
    by (vm_compute; reflexivity).
  split; [reflexivity|]. split; [exact Hf|].
  exact (request_keeps_existing_files crowded.env sample.clip true false crowded.world
           run.1 run.2 _ _ eq_refl (surjective_pairing run) Hf).
Defined.


Lemma serve_set_event env file quick anylang w r w' :
  model_loaded w = true ->
  write_exn env = None -> remove_exn env = None ->
  serve env file quick anylang w = (r, w') ->
  r <> Blocked /\ files (fs w') = files (fs w)
  /\ model w' = model w /\ model_loaded w' = true.
Proof.
  intros Hset Hw Hr. unfold serve.
  destruct (transcribe_audio env file quick anylang (enter w)) as [r0 fr] eqn:Hrun.
  intros [= <- <-]. wp_from Hrun. apply wp_transcribe_audio; [|congruence].
  intros w0 [[_ ->]|[? _]]; [|congruence].
  eapply wp_mono;
    [apply wp_and; [by apply after_gate_restores_files | apply after_gate_calls]|].
  intros r' fr' [(? & _) (? & ? & ? & _)]. cbn in *. split_and!; congruence.
Qed.

(** X6.  However many requests are served one after the other once the
    event is set, every one of them is answered and the files are those
    found at the start, as long as no write of a temporary file and no
    removal fails: temporary files do not pile up. *)
Theorem served_requests_leave_no_file reqs w :
  model_loaded w = true ->
  Forall (fun rq => write_exn (req_env rq) = None /\ remove_exn (req_env rq) = None) reqs ->
  files (fs (serve_all reqs w).2) = files (fs w)
  /\ model (serve_all reqs w).2 = model w
  /\ length (serve_all reqs w).1 = length reqs
  /\ Forall (fun r => r <> Blocked) (serve_all reqs w).1.
Proof.
  intros Hset Hall. revert w Hset.
  induction Hall as [|rq rest [Hw Hr] _ IH]; intros w Hset; [by split_and!|].
  cbn [serve_all].
  destruct (serve (req_env rq) (req_file rq) (req_quick rq) (req_any_lang rq) w)
    as [r w1] eqn:Hserve.
  destruct (serve_set_event _ _ _ _ _ _ _ Hset Hw Hr Hserve) as (? & ? & ? & Hset1).
  specialize (IH w1 Hset1). destruct (serve_all rest w1) as [rs w2]. cbn in *.
  destruct IH as (? & ? & ? & ?). split_and!; [congruence..| by f_equal | by constructor].
Qed.

Lemma served_requests_leave_no_file_witness :
  let ok := {| req_env := crowded.env; req_file := sample.clip;
               req_quick := true; req_any_lang := false |} in
  let bad := {| req_env := crowded.env_model_fails; req_file := crowded.nameless;
                req_quick := false; req_any_lang := true |} in
  model_loaded crowded.world = true
  /\ files (fs (serve_all [ok; bad; ok] crowded.world).2) = files (fs crowded.world).
Proof.
  intros ok bad. split; [reflexivity|].
  refine (proj1 (served_requests_leave_no_file [ok; bad; ok] crowded.world eq_refl _)).
  repeat constructor.
Defined.



Lemma after_gate_nameless env file q a t w0 content :
  is_Some (model w0) ->
  makedirs_exn env = None ->
  read file = inr content ->
  filename file = None ->
  wp (after_gate env file q a t)
     (fun r fr =>
        r = Raise (HTTPException 500 "Transcription failed.")
        /\ tmp_file_path fr = None
        /\ files (fs (world fr)) = files (fs w0)
        /\ trace (world fr) = trace w0 ++ [CallMakedirs (UPLOAD_DIR w0); CallRead])
     (enter w0).
Proof.
  intros [mdl Hm] Hmk Hrd Hname. unfold_handler. unfold enter.
  repeat wp_step.
  all: try congruence.
  all: by rewrite ?snoc_app.
Qed.

(** X8.  An upload that comes without a file name is turned away with the
    fixed 500 response: the name is looked at only after the body has been
    read, no temporary file is made, and the files are untouched. *)
Theorem nameless_upload_rejected env file quick anylang w r fr content :
  model_loaded w = true ->
  is_Some (model w) ->
  makedirs_exn env = None ->
  read file = inr content ->
  filename file = None ->
  transcribe_audio env file quick anylang (enter w) = (r, fr) ->
  r = Raise (HTTPException 500 "Transcription failed.")
  /\ tmp_file_path fr = None
  /\ files (fs (world fr)) = files (fs w)
  /\ trace (world fr)
     = trace w ++ [CallTime (t_start env); CallMakedirs (UPLOAD_DIR w); CallRead].
Proof.
  intros Hset Hm Hmk Hrd Hname Hrun.
  wp_from Hrun. apply wp_transcribe_audio; [|congruence].
  intros w0 [[_ ->]|[? _]]; [|congruence].
  eapply wp_mono; [by eapply after_gate_nameless|].
  intros r' fr' (? & ? & ? & Ht). split_and!; [done..|].
  rewrite Ht. cbn. by rewrite <- app_assoc.
Qed.

Lemma nameless_upload_rejected_witness :
  let run := transcribe_audio crowded.env crowded.nameless true false
               (enter crowded.world) in
  model_loaded crowded.world = true
  /\ is_Some (model crowded.world)
  /\ filename crowded.nameless = None
  /\ run.1 = Raise (HTTPException 500 "Transcription failed.").
Proof.
  intros run. split_and!; [reflexivity | by eexists | reflexivity |].
  exact (proj1 (nameless_upload_rejected crowded.env crowded.nameless true false
                  crowded.world run.1 run.2 _ eq_refl (ex_intro _ _ eq_refl) eq_refl
                  eq_refl eq_refl (surjective_pairing run))).
Defined.

(** ** More on the loader *)

Lemma append_ne_self (s : string) c t : (s ++ String c t)%string <> s.
Proof.
  induction s as [|x s IH]; [done|].
  change (String x (s ++ String c t) <> String x s)%string. congruence.
Qed.

Lemma last_char_app (s : string) c t :
  last_char (s ++ String c t) = last_char (String c t).
Proof.
  induction s as [|x s IH]; [done|].
  change (last_char (String x (s ++ String c t)) = last_char (String c t))%string.
  cbn [last_char]. rewrite IH.
  destruct s; reflexivity.
Qed.

Lemma cached_paths_differ w : cached_weights w <> cached_config w.
Proof.
  unfold cached_weights, cached_config, path_join.
  intros H. apply String.app_inj in H. discriminate H.
Qed.

Lemma config_source_is_not_cached_weights hf w :
  (hf ++ "/config.json")%string <> cached_weights w.
Proof.
  intros H. apply (f_equal last_char) in H.
  unfold cached_weights, path_join in H.
  change ("/" ++ "model.safetensors")%string with "/model.safetensors" in H.
  rewrite !last_char_app in H. cbn [last_char] in H. discriminate H.
Qed.

Section Loader.

Context (le : LoadEnv) (w : World).

(** What a successful run publishes. *)
Lemma load_model_success :
  wp (load_model le)
     (fun r w' =>
        match r with
        | Return _ =>
            exists fp raw c items out,
              files (fs w') !! cached_config w = Some fp
              /\ files (fs w') !! cached_weights w = Some raw
              /\ json_load le fp = inr c
              /\ mx_load le raw = inr items
              /\ normalize_weights items = inr out
              /\ model w' = Some {| cfg := c; params := out; training := false |}
        | _ => True
        end) w.
Proof.
  unfold cached_config, cached_weights. unfold_loader.
  repeat wp_step.
  all: try done.
  all: by eexists _, _, _, _, _.
Qed.

(** With both files cached nothing is downloaded and no file changes. *)
Lemma load_model_cached :
  is_Some (files (fs w) !! cached_weights w) ->
  is_Some (files (fs w) !! cached_config w) ->
  wp (load_model le)
     (fun r w' => files (fs w') = files (fs w) /\ trace w' = trace w) w.
Proof.
  unfold cached_config, cached_weights. intros Hw Hc. unfold_loader.
  repeat wp_step.
  all: try done.
  all: exfalso;
       repeat match goal with
              | H : _ || _ = false |- _ => apply orb_false_iff in H as [H _]
              | H : negb _ = true |- _ => apply negb_true_iff in H
              | H : bool_decide _ = false |- _ => apply bool_decide_eq_false in H
              end; try done.
Qed.

End Loader.

Section Download.

Context (le : LoadEnv) (w : World) (hf : string) (snap : gmap string bytes).

Hypothesis mkdir_ok : mkdir_exn le = None.
Hypothesis not_cached : files (fs w) !! cached_config w = None.
Hypothesis not_a_dir : cached_config w ∉ dirs (fs w).
Hypothesis downloaded : snapshot_download le = inr (hf, snap).

(** [config.json] is missing from the cache, so the download is made. *)
Lemma config_not_there :
  bool_decide (is_Some (files (fs w) !! cached_config w))
  || bool_decide (cached_config w ∈ ({[ CACHE_DIR w ]} ∪ dirs (fs w) : gset string)) = false.
Proof.
  apply orb_false_iff. split; apply bool_decide_eq_false.
  - rewrite not_cached. by intros [? ?].
  - intros [Hin%elem_of_singleton|?]%elem_of_union; [|done].
    by apply append_ne_self in Hin.
Qed.


(** [config.json] not delivered: the copy fails unnoticed and the run ends
    where the cached file is opened. *)
Lemma load_model_copy_failed :
  snap !! cached_config w = None ->
  (snap ∪ files (fs w)) !! (hf ++ "/config.json")%string = None ->
  wp (load_model le)
     (fun r w' =>
        r = Raise (Exception ("[Errno 2] No such file or directory: '"
                              ++ cached_config w ++ "'"))
        /\ model w' = model w /\ model_loaded w' = true) w.
Proof.
  intros Hsnap Hmiss.
  pose proof config_not_there as Hcfg.
  pose proof (cached_paths_differ w) as Hne.
  pose proof (config_source_is_not_cached_weights hf w) as Hsrc.
  assert (Hcc : (snap ∪ files (fs w)) !! cached_config w = None).
  { apply lookup_union_None. by split. }
  unfold cached_config, cached_weights in *. unfold_loader.
  repeat wp_step.
  all: try congruence.
  all: simplify_eq; cbn [fst snd] in *.
  all: repeat match goal with
         | H : <[_ := _]> _ !! _ = _ |- _ =>
             rewrite lookup_insert_ne in H by done
         end.
  all: try congruence.
  all: try match goal with
           | H : negb _ = false |- _ => rewrite Hcfg in H; discriminate H
           end.
  all: simplify_eq; done.
Qed.

End Download.

(** X9.  When [load_model] returns normally, the model it has published was
    built from the cached [config.json] and the cached weights after the
    normalisation of lines 79-85, and is in evaluation mode; the event is
    set, and at the configured level nothing has been logged. *)
Theorem successful_load_publishes_eval_model le w w' :
  load_model le w = (Return tt, w') ->
  model_loaded w' = true
  /\ log w' = log w
  /\ exists fp raw c items out,
       files (fs w') !! cached_config w = Some fp
       /\ files (fs w') !! cached_weights w = Some raw
       /\ json_load le fp = inr c
       /\ mx_load le raw = inr items
       /\ normalize_weights items = inr out
       /\ model w' = Some {| cfg := c; params := out; training := false |}.
Proof.
  intros Hrun.
  pose proof (wp_run _ _ _ _ _ (load_model_post le w) Hrun) as (Hset & _ & _ & _ & _ & _ & Hlog).
  pose proof (wp_run _ _ _ _ _ (load_model_success le w) Hrun) as Hmodel.
  by split_and!.
Qed.

Lemma successful_load_publishes_eval_model_witness :
  let run := load_model crowded.online (set_loader_thread None crowded.fresh) in
  run.1 = Return tt
  /\ model run.2
     = Some {| cfg := [("n_mels", 128%Z)];
               params :=
                 [("encoder.conv1.weight",
                   {| mx.shape := [1; 3; 2]; mx.data := [1; 4; 2; 5; 3; 6]%Z |});
                  ("decoder.positional_embedding",
                   {| mx.shape := [2; 2]; mx.data := [7; 8; 9; 10]%Z |})];
               training := false |}.
Proof.
  intros run.
  assert (Hr : run = (Return tt, run.2)) by (vm_compute; reflexivity).
  split; [by rewrite Hr|].
  destruct (successful_load_publishes_eval_model _ _ _ Hr) as (_ & _ & _).
  vm_compute. reflexivity.
Defined.

(** X10.  When both cached files are there, [load_model] downloads nothing
    and leaves every file as it is, whether the load then succeeds or
    fails. *)
Theorem cached_model_is_not_downloaded le w r w' :
  is_Some (files (fs w) !! cached_weights w) ->
  is_Some (files (fs w) !! cached_config w) ->
  load_model le w = (r, w') ->
  trace w' = trace w /\ files (fs w') = files (fs w).
Proof.
  intros Hw Hc Hrun.
  by destruct (wp_run _ _ _ _ _ (load_model_cached le w Hw Hc) Hrun).
Qed.


(** X12.  [os.system]'s exit status is not looked at: when [config.json] is
    neither cached nor among the downloaded files, the copy fails unnoticed
    and [load_model] fails only where it opens the cached file, with "No
    such file or directory"; the event is set and no model is published. *)
Theorem failed_copy_surfaces_at_open le w hf snap r w' :
  mkdir_exn le = None ->
  files (fs w) !! cached_config w = None ->
  cached_config w ∉ dirs (fs w) ->
  snapshot_download le = inr (hf, snap) ->
  snap !! cached_config w = None ->
  (snap ∪ files (fs w)) !! (hf ++ "/config.json")%string = None ->
  load_model le w = (r, w') ->
  r = Raise (Exception ("[Errno 2] No such file or directory: '"
                        ++ cached_config w ++ "'"))
  /\ model w' = model w /\ model_loaded w' = true.
Proof.
  intros Hmk Hnc Hnd Hdl Hs Hmiss Hrun.
  exact (wp_run _ _ _ _ _
           (load_model_copy_failed le w hf snap Hmk Hnc Hnd Hdl Hs Hmiss) Hrun).
Qed.

Lemma cached_model_is_not_downloaded_witness :
  let w1 := (load_model crowded.online (set_loader_thread None crowded.fresh)).2 in
  let run := load_model sample.offline w1 in
  is_Some (files (fs w1) !! cached_weights w1)
  /\ is_Some (files (fs w1) !! cached_config w1)
  /\ trace run.2 = trace w1.
Proof.
  intros w1 run.
  assert (Hw : is_Some (files (fs w1) !! cached_weights w1)) by (vm_compute; eauto).
  assert (Hc : is_Some (files (fs w1) !! cached_config w1)) by (vm_compute; eauto).
  split; [exact Hw|]. split; [exact Hc|].
  exact (proj1 (cached_model_is_not_downloaded sample.offline w1 run.1 run.2 Hw Hc
                  (surjective_pairing run))).
Defined.


Lemma failed_copy_surfaces_at_open_witness :
  let w := module_init "/srv/app" crowded.partial_download sample.empty_fs in
  let run := load_model crowded.partial_download w in
  files (fs w) !! cached_config w = None
  /\ run.1 = Raise (Exception
       "[Errno 2] No such file or directory: '/srv/app/data/.whisper_cache/config.json'")
  /\ model run.2 = None.
Proof.
  intros w run.
  assert (Hnc : files (fs w) !! cached_config w = None) by reflexivity.
  assert (Hnd : cached_config w ∉ dirs (fs w)) by apply not_elem_of_empty.
  split; [exact Hnc|].
  destruct (failed_copy_surfaces_at_open crowded.partial_download w "/hf/snap" _
              run.1 run.2 eq_refl Hnc Hnd eq_refl eq_refl eq_refl
              (surjective_pairing run)) as (Hr & Hm & _).
  split; [exact Hr | exact Hm].
Defined.

(** * Further properties of the normalisation *)

(** X13.  A three-dimensional weight of shape [(a, b, c)] whose key contains
    ["conv"] comes out of the normalisation with shape [(a, c, b)], and its
    element at [(i, l, j)] is the loaded tensor's element at [(i, j, l)]. *)
Theorem normalized_conv_weight_layout (k : string) (a b c : nat) (d : list Z) (i j l : nat) :
  pystr.contains "conv" k = true ->
  length d = a * b * c ->
  i < a -> j < b -> l < c ->
  exists v',
    normalize_entry (k, {| mx.shape := [a; b; c]; mx.data := d |})
      = inr (pystr.replace "embed_positions.weight" "positional_embedding" k, v')
    /\ mx.shape v' = [a; c; b]
    /\ nth (mx.ravel [a; c; b] [i; l; j]) (mx.data v') 0%Z
       = nth (mx.ravel [a; b; c] [i; j; l]) d 0%Z.
Proof.
  intros Hk Hlen Hi Hj Hl.
  destruct (normalize_entry_ok k {| mx.shape := [a; b; c]; mx.data := d |})
    as (v' & He & Hc).
  rewrite Hk in Hc. change (_ && _) with true in Hc. destruct Hc as [Hsw _].
  exists v'. split; [done|].
  by apply (swapaxes_elements a b c d v' i j l).
Qed.

Lemma normalized_conv_weight_layout_witness :
  exists v',
    normalize_entry ("encoder.conv1.weight",
                     {| mx.shape := [1; 2; 3]; mx.data := [1; 2; 3; 4; 5; 6]%Z |})
      = inr ("encoder.conv1.weight", v')
    /\ mx.shape v' = [1; 3; 2]
    /\ nth 5 (mx.data v') 0%Z = 6%Z.
Proof.
  apply (normalized_conv_weight_layout "encoder.conv1.weight" 1 2 3 [1; 2; 3; 4; 5; 6]%Z 0 1 2);
    [reflexivity|reflexivity|lia..].
Defined.

(** * Properties of the example clients *)

Lemma lower_app (s t : string) : client.lower (s ++ t)%string = (client.lower s ++ client.lower t)%string.
Proof.
  induction s as [|c s IH]; [done|].
  change (String (client.lower_char c) (client.lower (s ++ t)%string)
          = String (client.lower_char c) (client.lower s ++ client.lower t)%string).
  by rewrite IH.
Qed.

Lemma lower_split (p a b : string) :
  client.lower p = (a ++ b)%string ->
  exists s t, p = (s ++ t)%string /\ client.lower s = a /\ client.lower t = b.
Proof.
  revert p. induction a as [|c a IH]; intros p H.
  - exists EmptyString, p. by split_and!.
  - destruct p as [|d p]; [discriminate H|].
    change (String (client.lower_char d) (client.lower p) = String c (a ++ b)%string) in H.
    injection H as Hc Hp. destruct (IH p Hp) as (s & t & -> & Hs & Ht).
    exists (String d s), t. split_and!; [done| |done].
    cbn [client.lower]. by rewrite Hc, Hs.
Qed.

Lemma endswith_iff (suffix s : string) :
  client.endswith suffix s = true <-> exists stem, s = (stem ++ suffix)%string.
Proof.
  induction s as [|c s IH]; cbn [client.endswith].
  - rewrite orb_false_r, String.eqb_eq. split.
    + intros ->. by exists EmptyString.
    + intros [[|d stem] H]; [done|discriminate H].
  - rewrite orb_true_iff, String.eqb_eq, IH. split.
    + intros [->|[stem ->]]; [by exists EmptyString|by exists (String c stem)].
    + intros [[|d stem] H]; [by left|].
      change (String c s = String d (stem ++ suffix)%string) in H.
      injection H as _ ->. right. by exists stem.
Qed.

(** X14.  [simple_demo.transcribe_audio] accepts a path exactly when it ends,
    letters of either case, in one of [.wav], [.mp3], [.m4a], [.flac]: the
    path splits into a stem and an ending whose lower-case form is one of
    the four.  Nothing else of the path matters, and a path that is only
    such an ending is accepted too. *)
Theorem supported_iff_suffix_ignoring_case (file_path : string) :
  client.supported file_path = true <->
  exists stem ext, file_path = (stem ++ ext)%string /\ client.lower ext ∈ client.audio_suffixes.
Proof.
  unfold client.supported. rewrite existsb_exists. split.
  - intros (suffix & Hin & Hends). apply endswith_iff in Hends as [stem' Hl].
    apply lower_split in Hl as (s & t & -> & _ & Ht).
    exists s, t. split; [done|]. rewrite Ht. by apply list_elem_of_In.
  - intros (stem & ext & -> & Hin). exists (client.lower ext). split.
    + by apply list_elem_of_In.
    + apply endswith_iff. exists (client.lower stem). apply lower_app.
Qed.

Lemma basename_no_slash (p : string) : pystr.contains "/" (client.basename p) = false.
Proof.
  induction p as [|c p IH]; [done|].
  cbn [client.basename]. destruct (pystr.contains "/" p) eqn:Hp; [done|].
  destruct (String.prefix "/" (String c p)) eqn:Hc; [done|].
  cbn [pystr.contains]. by rewrite Hc, Hp.
Qed.

Lemma basename_is_tail (p : string) :
  exists dir, p = (dir ++ client.basename p)%string
              /\ (dir = EmptyString \/ exists d, dir = (d ++ "/")%string).
Proof.
  induction p as [|c p (dir & IH & Hdir)]; [exists EmptyString; by split; [|left]|].
  cbn [client.basename]. destruct (pystr.contains "/" p) eqn:Hp.
  - exists (String c dir). split.
    + change (String c p = String c (dir ++ client.basename p)%string). by rewrite <- IH.
    + right. destruct Hdir as [->|[d ->]]; [|by exists (String c d)].
      change (p = client.basename p) in IH. rewrite IH, basename_no_slash in Hp.
      discriminate Hp.
  - destruct (String.prefix "/" (String c p)) eqn:Hc.
    + exists (String c EmptyString). split; [done|]. right. exists EmptyString.
      cbn [String.prefix] in Hc. by destruct (Stdlib.Strings.Ascii.ascii_dec _ c) as [<-|].
    + exists EmptyString. by split; [|left].
Qed.

(** X15.  [simple_demo.transcribe_audio] sends at most one request, and none
    unless the file exists, its name has a supported ending and it could be
    opened; the request goes to [<server_url>/transcribe], carries the
    file's content under the path as given, and the two flags as the
    strings ["true"] and ["false"]. *)
Theorem simple_demo_sends_only_checked_files (env : client.Env) (file_path : string)
    (quick anylang : bool) (server_url : string) (sent sent' : list client.Post)
    (r : client.error + client.json) :
  client.simple_demo_transcribe_audio env file_path quick anylang server_url sent = (r, sent') ->
  sent' = sent \/
  (client.path_exists env file_path = true /\ client.supported file_path = true /\
   exists f, client.open_rb env file_path = inr f /\
     sent' = sent ++ [ {| client.url := (server_url ++ "/transcribe")%string;
                          client.upload_name := file_path;
                          client.upload_body := f;
                          client.params := [("quick", if quick then "true" else "false");
                                            ("any_lang", if anylang then "true" else "false")] |} ]).
Proof.
  unfold client.simple_demo_transcribe_audio. intros H.
  destruct (client.path_exists env file_path); cbn [negb] in H; [|left; congruence].
  destruct (client.supported file_path); cbn [negb] in H; [|left; congruence].
  destruct (client.open_rb env file_path) as [e|f]; [left; congruence|].
  right. split_and!; [done..|]. exists f. split; [done|].
  assert (sent' = sent ++ [ {| client.url := (server_url ++ "/transcribe")%string;
                               client.upload_name := file_path;
                               client.upload_body := f;
                               client.params := client.query quick anylang |} ]) as ->.
  { cbv zeta in H.
    repeat match type of H with
           | context [match ?x with _ => _ end] => destruct x
           end; congruence. }
  by destruct quick, anylang.
Qed.

Lemma simple_demo_sends_only_checked_files_witness :
  client.supported "/home/u/Talk.WAV" = true.
Proof.
  destruct (simple_demo_sends_only_checked_files client.studio "/home/u/Talk.WAV" true false
              "http://localhost:8000" [] _ _ (surjective_pairing _))
    as [H|(_ & H & _)]; [discriminate H|exact H].
Defined.

(** X16.  Whatever request [simple_demo.transcribe_audio] sends for a path,
    [demo.transcribe_sync] sends for it too (it checks nothing first), with
    the same URL, content and query; only the file name differs: it is the
    part of the path after the last slash (it has no slash, and what comes
    before it in the path is empty or ends in one). *)
Theorem demo_sends_what_simple_demo_sends (env : client.Env) (file_path : string)
    (quick anylang : bool) (server_url : string) (sent : list client.Post)
    (request : client.Post) (r : client.error + client.json) :
  client.simple_demo_transcribe_audio env file_path quick anylang server_url sent
    = (r, sent ++ [request]) ->
  (client.demo_transcribe_sync env file_path quick anylang server_url sent).2
    = sent ++ [ {| client.url := client.url request;
                   client.upload_name := client.basename file_path;
                   client.upload_body := client.upload_body request;
                   client.params := client.params request |} ] /\
  pystr.contains "/" (client.basename file_path) = false /\
  exists dir, client.upload_name request = (dir ++ client.basename file_path)%string
              /\ (dir = EmptyString \/ exists d, dir = (d ++ "/")%string).
Proof.
  intros H.
  assert (exists f, client.open_rb env file_path = inr f /\
            request = {| client.url := (server_url ++ "/transcribe")%string;
                         client.upload_name := file_path;
                         client.upload_body := f;
                         client.params := client.query quick anylang |}) as (f & Hf & ->).
  { unfold client.simple_demo_transcribe_audio in H. cbv zeta in H.
    assert (forall l (x : client.Post), l ++ [x] <> l) as Hne.
    { intros l x E. apply (f_equal length) in E. rewrite length_app in E. cbn in E. lia. }
    repeat match type of H with
           | context [match ?x with _ => _ end] => destruct x eqn:?
           | context [if ?x then _ else _] => destruct x eqn:?
           end;
      injection H as _ H; try (symmetry in H; by apply Hne in H);
      apply app_inj_tail in H as [_ <-]; by eexists. }
  split_and!; [|apply basename_no_slash|apply basename_is_tail].
  unfold client.demo_transcribe_sync. rewrite Hf. cbv zeta.
  repeat match goal with
         | |- context [match ?x with _ => _ end] => destruct x
         end; done.
Qed.

Lemma demo_sends_what_simple_demo_sends_witness :
  pystr.contains "/" (client.basename "/home/u/Talk.WAV") = false.
Proof.
  exact (proj1 (proj2 (demo_sends_what_simple_demo_sends client.studio "/home/u/Talk.WAV"
                         true false "http://localhost:8000" [] _ _ eq_refl))).
Defined.
